(** * An image canvas on ImGui and OpenGL

    A shallow embedding of the canvas ([ui/canvas.cpp]), the older
    single-window dialog ([dialog.cpp]) and the toolbar
    ([ui/toolbar.cpp]), with the properties of their specification.

    C++ objects are records, static members and function-level statics are
    fields of one process-wide [World], member functions are computations
    in a state-and-exception monad over the object and the world, and
    [float] is IEEE-754 binary32 as specified by [SpecFloat]. *)

From Stdlib Require Import ZArith NArith Lia Bool List.
From Stdlib Require Import Floats.SpecFloat.
From stdpp Require Import base option strings gmap list.

(** ** [float]: IEEE-754 binary32 *)

Module Float32.
Local Open Scope Z_scope.

Definition prec : Z := 24.
Definition emax : Z := 128.

Definition float : Type := spec_float.

Definition mul : float -> float -> float := SFmul prec emax.
Definition div : float -> float -> float := SFdiv prec emax.
Definition add : float -> float -> float := SFadd prec emax.
Definition sub : float -> float -> float := SFsub prec emax.

(** Conversion of an integer to [float], as in [m_zoom * m_texture.width]. *)
Definition of_Z (z : Z) : float := binary_normalize prec emax z 0 false.

Definition zero : float := S754_zero false.
Definition one : float := S754_finite false 8388608 (-23).
Definition two : float := S754_finite false 8388608 (-22).

(** The floats of the type: [spec_float] also has terms that stand for
    no binary32 value. *)
Definition valid (x : float) : bool := valid_binary prec emax x.

(** A mantissa shifted left by the 23 zero bits of the mantissa of 2.0f. *)
Definition shl23 (m : positive) : positive :=
  (m~0~0~0~0~0~0~0~0~0~0~0~0~0~0~0~0~0~0~0~0~0~0~0)%positive.

Definition is_finite (x : float) : bool :=
  match x with
  | S754_zero _ | S754_finite _ _ _ => true
  | S754_infinity _ | S754_nan => false
  end.

Definition double (z : float) : float := mul z two.
Definition halve (z : float) : float := div z two.

End Float32.

Abbreviation float := Float32.float.

Arguments Float32.mul : simpl never.
Arguments Float32.div : simpl never.
Arguments Float32.add : simpl never.
Arguments Float32.sub : simpl never.
Arguments Float32.of_Z : simpl never.

(** ** Exceptions and the method monad *)

Inductive Exn : Type :=
  | out_of_range      (* std::out_of_range, thrown by unordered_map::at *)
  | ShaderException.

(** The outcome of running a member function from a state [S]: a normal
    return, an exception that leaves the state as it was when it was
    thrown, or undefined behaviour (a dangling pointer is dereferenced). *)
Inductive Res (S A : Type) : Type :=
  | Ret (a : A) (s : S)
  | Raise (e : Exn) (s : S)
  | Undefined.
Arguments Ret {S A} a s.
Arguments Raise {S A} e s.
Arguments Undefined {S A}.

Definition M (S A : Type) : Type := S -> Res S A.

#[global] Instance M_ret {S} : MRet (M S) := fun A a s => Ret a s.
#[global] Instance M_bind {S} : MBind (M S) := fun A B f m s =>
  match m s with
  | Ret a s' => f a s'
  | Raise e s' => Raise e s'
  | Undefined => Undefined
  end.

Definition gets {S A} (f : S -> A) : M S A := fun s => Ret (f s) s.
Definition modify {S} (f : S -> S) : M S unit := fun s => Ret tt (f s).
Definition throw {S A} (e : Exn) : M S A := fun s => Raise e s.
Definition undefined {S A} : M S A := fun _ => Undefined.
Definition when {S} (b : bool) (m : M S unit) : M S unit :=
  if b then m else mret tt.

(** [wp m Q s]: from [s], [m] returns, with a result and a state that
    satisfy [Q]. *)
Definition wp {S A} (m : M S A) (Q : A -> S -> Prop) (s : S) : Prop :=
  match m s with
  | Ret a s' => Q a s'
  | Raise _ _ | Undefined => False
  end.

(** The state reached, whether by return or by exception. *)
Definition final_state {S A} (r : Res S A) : option S :=
  match r with
  | Ret _ s | Raise _ s => Some s
  | Undefined => None
  end.

Definition raises {S A} (r : Res S A) : option Exn :=
  match r with Raise e _ => Some e | _ => None end.

(** ** Data *)

Definition GLuint : Type := N.
Definition ImVec2 : Type := (float * float)%type.

(** Decoded raster data: what an image file holds and what a buffer or a
    texture stores. *)
Record Bitmap : Type := {
  bm_width : N;
  bm_height : N;
  bm_channels : N;
  bm_pixels : list N
}.

Definition empty_bitmap : Bitmap :=
  {| bm_width := 0%N; bm_height := 0%N; bm_channels := 0%N; bm_pixels := [] |}.

(** [Image]: a pointer to a pixel buffer on the heap ([None] is the null
    pointer) with its dimensions.  Copying an [Image] copies the pointer. *)
Record Image : Type := {
  img_data : option N;
  img_width : N;
  img_height : N;
  img_n_channels : N
}.

Record Texture2D : Type := {
  tex_id : GLuint;
  tex_width : N;
  tex_height : N
}.

Record Program : Type := {
  prog_id : GLuint;
  prog_failed : bool
}.

(** [glm::mat4] values are kept as the expressions that build them. *)
Inductive mat4 : Type :=
  | mat4_identity                                  (* glm::mat4(1.0f) *)
  | glm_ortho (left right bottom top : float)
  | glm_translate (m : mat4) (x y z : float)
  | mat4_mul (a b : mat4).

Inductive Uniform : Type :=
  | UniformMat4 (m : mat4)
  | UniformTexture (t : Texture2D).

Inductive ClickMode : Type := ClickMode_NONE | DRAW_CIRCLE | DRAW_LINE.
Inductive HoverMode : Type := HoverMode_NONE | IMAGE_SUBSET | PIXEL_VALUE.

#[global] Instance ClickMode_eq_dec : EqDecision ClickMode.
Proof. solve_decision. Defined.
#[global] Instance HoverMode_eq_dec : EqDecision HoverMode.
Proof. solve_decision. Defined.

Inductive ToolbarButton : Type :=
  | ICON_FA_FOLDER_OPEN | ICON_FA_SAVE | ICON_FA_WINDOW_CLOSE
  | ICON_FA_PLUS_CIRCLE | ICON_FA_MINUS_CIRCLE | ICON_FA_CIRCLE | ICON_FA_PEN.

Inductive MenuItem : Type := Item_Open | Item_Quit | Item_To_gray.

#[global] Instance ToolbarButton_eq_dec : EqDecision ToolbarButton.
Proof. solve_decision. Defined.
#[global] Instance MenuItem_eq_dec : EqDecision MenuItem.
Proof. solve_decision. Defined.

(** Callbacks that the canvas and the dialog append to a draw list. *)
Inductive ImDrawCallback : Type :=
  | Canvas_draw_with_custom_shader
  | Dialog_draw_with_custom_shader
  | ImDrawCallback_ResetRenderState.

(** Commands of a draw list.  [UserCallbackData] is the one pointer that
    can be attached to a callback; [None] is [nullptr]. *)
Inductive ImDrawCmd : Type :=
  | CmdCallback (cb : ImDrawCallback)
                (UserCallbackData : option (Program * Texture2D))
  | CmdImage (texture : GLuint) (size : ImVec2).

Inductive Tooltip : Type :=
  | TooltipImage_render (y_offset zoom : float)
  | TooltipPixel_render (y_offset : float).

(** What the user and the window system do during one frame. *)
Record Input : Type := {
  DisplaySize : ImVec2;
  FontSize : float;
  MousePos : ImVec2;
  IsItemClicked : bool;          (* the canvas image was clicked *)
  IsItemHovered : bool;          (* the canvas image is hovered *)
  ButtonsClicked : list ToolbarButton;
  RadioClicked : option HoverMode;
  MenuItemsClicked : list MenuItem;
  (* ImGuiFileDialog: [Some r] once the user closed the dialog, with
     [r = Some path] when a file was chosen *)
  FileDialogClosed : option (option string)
}.

(** ** The process-wide state *)

Inductive MemEvent : Type := Alloc (a : N) | Free (a : N).

Record Memory : Type := {
  heap : gmap N Bitmap;            (* live pixel buffers by address *)
  heap_next : N;                   (* next address handed out *)
  mem_events : list MemEvent;      (* allocations and releases, in order *)
  files : gmap string Bitmap       (* image files by path *)
}.

Record GLContext : Type := {
  gl_broken : gset string;         (* shader sources that do not compile *)
  gl_next : GLuint;
  gl_programs : gset GLuint;       (* programs created and not deleted *)
  gl_textures : gmap GLuint Bitmap;
  gl_bound_texture : option GLuint;
  gl_program_in_use : option GLuint;   (* None: ImGui's own render state *)
  gl_uniforms : gmap (GLuint * string) Uniform;
  gl_drawn : list (option GLuint * GLuint)
    (* every draw issued: the program in use and the texture drawn *)
}.

Record Frame : Type := {
  input : Input;
  draw_list : list ImDrawCmd;
  tooltips : list Tooltip
}.

Record ToolbarStatics : Type := {
  Toolbar_open_image : bool;
  Toolbar_save_image : bool;
  Toolbar_quit_app : bool;
  Toolbar_zoom_in : bool;
  Toolbar_zoom_out : bool;
  Toolbar_draw_circle : bool;
  Toolbar_draw_line : bool;
  Toolbar_hover_mode : HoverMode
}.

(** The three [static bool] locals of [Dialog::render_menu]. *)
Record MenuLocals : Type := {
  open_image : bool;
  quit_app : bool;
  to_gray : bool
}.

Record Statics : Type := {
  callback_data : GLuint * GLuint;     (* Canvas::callback_data *)
  toolbar : ToolbarStatics;
  Menu_draw_circle : bool;
  Menu_draw_line : bool;
  Mouse_click_mode : ClickMode;
  Mouse_hover_mode : HoverMode;
  Size_menu : ImVec2;
  Size_toolbar : ImVec2;
  Size_canvas : ImVec2;
  render_menu_locals : MenuLocals;
  window_should_close : bool;          (* set by Window::close *)
  file_dialog_open : bool              (* ImGuiFileDialog::Instance() *)
}.

Record World : Type := {
  mem : Memory;
  gl : GLContext;
  frame : Frame;
  statics : Statics
}.

(** *** Field updates

    [set_f v r] is [r] with field [f] replaced by [v]. *)

Definition set_heap (v : gmap N Bitmap) (r : Memory) : Memory :=
  {| heap := v; heap_next := heap_next r; mem_events := mem_events r; files
     := files r |}.

Definition set_heap_next (v : N) (r : Memory) : Memory :=
  {| heap := heap r; heap_next := v; mem_events := mem_events r; files :=
     files r |}.

Definition set_mem_events (v : list MemEvent) (r : Memory) : Memory :=
  {| heap := heap r; heap_next := heap_next r; mem_events := v; files :=
     files r |}.

Definition set_files (v : gmap string Bitmap) (r : Memory) : Memory :=
  {| heap := heap r; heap_next := heap_next r; mem_events := mem_events r;
     files := v |}.

Definition set_gl_next (v : GLuint) (r : GLContext) : GLContext :=
  {| gl_broken := gl_broken r; gl_next := v; gl_programs := gl_programs r;
     gl_textures := gl_textures r; gl_bound_texture := gl_bound_texture r;
     gl_program_in_use := gl_program_in_use r; gl_uniforms := gl_uniforms r;
     gl_drawn := gl_drawn r |}.

Definition set_gl_programs (v : gset GLuint) (r : GLContext) : GLContext :=
  {| gl_broken := gl_broken r; gl_next := gl_next r; gl_programs := v;
     gl_textures := gl_textures r; gl_bound_texture := gl_bound_texture r;
     gl_program_in_use := gl_program_in_use r; gl_uniforms := gl_uniforms r;
     gl_drawn := gl_drawn r |}.

Definition set_gl_textures (v : gmap GLuint Bitmap) (r : GLContext) : GLContext :=
  {| gl_broken := gl_broken r; gl_next := gl_next r; gl_programs :=
     gl_programs r; gl_textures := v; gl_bound_texture := gl_bound_texture
     r; gl_program_in_use := gl_program_in_use r; gl_uniforms := gl_uniforms
     r; gl_drawn := gl_drawn r |}.

Definition set_gl_bound_texture (v : option GLuint) (r : GLContext) : GLContext :=
  {| gl_broken := gl_broken r; gl_next := gl_next r; gl_programs :=
     gl_programs r; gl_textures := gl_textures r; gl_bound_texture := v;
     gl_program_in_use := gl_program_in_use r; gl_uniforms := gl_uniforms r;
     gl_drawn := gl_drawn r |}.

Definition set_gl_program_in_use (v : option GLuint) (r : GLContext) : GLContext :=
  {| gl_broken := gl_broken r; gl_next := gl_next r; gl_programs :=
     gl_programs r; gl_textures := gl_textures r; gl_bound_texture :=
     gl_bound_texture r; gl_program_in_use := v; gl_uniforms := gl_uniforms
     r; gl_drawn := gl_drawn r |}.

Definition set_gl_uniforms (v : gmap (GLuint * string) Uniform) (r : GLContext) : GLContext :=
  {| gl_broken := gl_broken r; gl_next := gl_next r; gl_programs :=
     gl_programs r; gl_textures := gl_textures r; gl_bound_texture :=
     gl_bound_texture r; gl_program_in_use := gl_program_in_use r;
     gl_uniforms := v; gl_drawn := gl_drawn r |}.

Definition set_gl_drawn (v : list (option GLuint * GLuint)) (r : GLContext) : GLContext :=
  {| gl_broken := gl_broken r; gl_next := gl_next r; gl_programs :=
     gl_programs r; gl_textures := gl_textures r; gl_bound_texture :=
     gl_bound_texture r; gl_program_in_use := gl_program_in_use r;
     gl_uniforms := gl_uniforms r; gl_drawn := v |}.

Definition set_input (v : Input) (r : Frame) : Frame :=
  {| input := v; draw_list := draw_list r; tooltips := tooltips r |}.

Definition set_draw_list (v : list ImDrawCmd) (r : Frame) : Frame :=
  {| input := input r; draw_list := v; tooltips := tooltips r |}.

Definition set_tooltips (v : list Tooltip) (r : Frame) : Frame :=
  {| input := input r; draw_list := draw_list r; tooltips := v |}.

Definition set_Toolbar_open_image (v : bool) (r : ToolbarStatics) : ToolbarStatics :=
  {| Toolbar_open_image := v; Toolbar_save_image := Toolbar_save_image r;
     Toolbar_quit_app := Toolbar_quit_app r; Toolbar_zoom_in :=
     Toolbar_zoom_in r; Toolbar_zoom_out := Toolbar_zoom_out r;
     Toolbar_draw_circle := Toolbar_draw_circle r; Toolbar_draw_line :=
     Toolbar_draw_line r; Toolbar_hover_mode := Toolbar_hover_mode r |}.

Definition set_Toolbar_save_image (v : bool) (r : ToolbarStatics) : ToolbarStatics :=
  {| Toolbar_open_image := Toolbar_open_image r; Toolbar_save_image := v;
     Toolbar_quit_app := Toolbar_quit_app r; Toolbar_zoom_in :=
     Toolbar_zoom_in r; Toolbar_zoom_out := Toolbar_zoom_out r;
     Toolbar_draw_circle := Toolbar_draw_circle r; Toolbar_draw_line :=
     Toolbar_draw_line r; Toolbar_hover_mode := Toolbar_hover_mode r |}.

Definition set_Toolbar_quit_app (v : bool) (r : ToolbarStatics) : ToolbarStatics :=
  {| Toolbar_open_image := Toolbar_open_image r; Toolbar_save_image :=
     Toolbar_save_image r; Toolbar_quit_app := v; Toolbar_zoom_in :=
     Toolbar_zoom_in r; Toolbar_zoom_out := Toolbar_zoom_out r;
     Toolbar_draw_circle := Toolbar_draw_circle r; Toolbar_draw_line :=
     Toolbar_draw_line r; Toolbar_hover_mode := Toolbar_hover_mode r |}.

Definition set_Toolbar_zoom_in (v : bool) (r : ToolbarStatics) : ToolbarStatics :=
  {| Toolbar_open_image := Toolbar_open_image r; Toolbar_save_image :=
     Toolbar_save_image r; Toolbar_quit_app := Toolbar_quit_app r;
     Toolbar_zoom_in := v; Toolbar_zoom_out := Toolbar_zoom_out r;
     Toolbar_draw_circle := Toolbar_draw_circle r; Toolbar_draw_line :=
     Toolbar_draw_line r; Toolbar_hover_mode := Toolbar_hover_mode r |}.

Definition set_Toolbar_zoom_out (v : bool) (r : ToolbarStatics) : ToolbarStatics :=
  {| Toolbar_open_image := Toolbar_open_image r; Toolbar_save_image :=
     Toolbar_save_image r; Toolbar_quit_app := Toolbar_quit_app r;
     Toolbar_zoom_in := Toolbar_zoom_in r; Toolbar_zoom_out := v;
     Toolbar_draw_circle := Toolbar_draw_circle r; Toolbar_draw_line :=
     Toolbar_draw_line r; Toolbar_hover_mode := Toolbar_hover_mode r |}.

Definition set_Toolbar_draw_circle (v : bool) (r : ToolbarStatics) : ToolbarStatics :=
  {| Toolbar_open_image := Toolbar_open_image r; Toolbar_save_image :=
     Toolbar_save_image r; Toolbar_quit_app := Toolbar_quit_app r;
     Toolbar_zoom_in := Toolbar_zoom_in r; Toolbar_zoom_out :=
     Toolbar_zoom_out r; Toolbar_draw_circle := v; Toolbar_draw_line :=
     Toolbar_draw_line r; Toolbar_hover_mode := Toolbar_hover_mode r |}.

Definition set_Toolbar_draw_line (v : bool) (r : ToolbarStatics) : ToolbarStatics :=
  {| Toolbar_open_image := Toolbar_open_image r; Toolbar_save_image :=
     Toolbar_save_image r; Toolbar_quit_app := Toolbar_quit_app r;
     Toolbar_zoom_in := Toolbar_zoom_in r; Toolbar_zoom_out :=
     Toolbar_zoom_out r; Toolbar_draw_circle := Toolbar_draw_circle r;
     Toolbar_draw_line := v; Toolbar_hover_mode := Toolbar_hover_mode r |}.

Definition set_Toolbar_hover_mode (v : HoverMode) (r : ToolbarStatics) : ToolbarStatics :=
  {| Toolbar_open_image := Toolbar_open_image r; Toolbar_save_image :=
     Toolbar_save_image r; Toolbar_quit_app := Toolbar_quit_app r;
     Toolbar_zoom_in := Toolbar_zoom_in r; Toolbar_zoom_out :=
     Toolbar_zoom_out r; Toolbar_draw_circle := Toolbar_draw_circle r;
     Toolbar_draw_line := Toolbar_draw_line r; Toolbar_hover_mode := v |}.

Definition set_open_image (v : bool) (r : MenuLocals) : MenuLocals :=
  {| open_image := v; quit_app := quit_app r; to_gray := to_gray r |}.

Definition set_quit_app (v : bool) (r : MenuLocals) : MenuLocals :=
  {| open_image := open_image r; quit_app := v; to_gray := to_gray r |}.

Definition set_to_gray (v : bool) (r : MenuLocals) : MenuLocals :=
  {| open_image := open_image r; quit_app := quit_app r; to_gray := v |}.

Definition set_callback_data (v : GLuint * GLuint) (r : Statics) : Statics :=
  {| callback_data := v; toolbar := toolbar r; Menu_draw_circle :=
     Menu_draw_circle r; Menu_draw_line := Menu_draw_line r;
     Mouse_click_mode := Mouse_click_mode r; Mouse_hover_mode :=
     Mouse_hover_mode r; Size_menu := Size_menu r; Size_toolbar :=
     Size_toolbar r; Size_canvas := Size_canvas r; render_menu_locals :=
     render_menu_locals r; window_should_close := window_should_close r;
     file_dialog_open := file_dialog_open r |}.

Definition set_toolbar (v : ToolbarStatics) (r : Statics) : Statics :=
  {| callback_data := callback_data r; toolbar := v; Menu_draw_circle :=
     Menu_draw_circle r; Menu_draw_line := Menu_draw_line r;
     Mouse_click_mode := Mouse_click_mode r; Mouse_hover_mode :=
     Mouse_hover_mode r; Size_menu := Size_menu r; Size_toolbar :=
     Size_toolbar r; Size_canvas := Size_canvas r; render_menu_locals :=
     render_menu_locals r; window_should_close := window_should_close r;
     file_dialog_open := file_dialog_open r |}.

Definition set_Menu_draw_circle (v : bool) (r : Statics) : Statics :=
  {| callback_data := callback_data r; toolbar := toolbar r;
     Menu_draw_circle := v; Menu_draw_line := Menu_draw_line r;
     Mouse_click_mode := Mouse_click_mode r; Mouse_hover_mode :=
     Mouse_hover_mode r; Size_menu := Size_menu r; Size_toolbar :=
     Size_toolbar r; Size_canvas := Size_canvas r; render_menu_locals :=
     render_menu_locals r; window_should_close := window_should_close r;
     file_dialog_open := file_dialog_open r |}.

Definition set_Menu_draw_line (v : bool) (r : Statics) : Statics :=
  {| callback_data := callback_data r; toolbar := toolbar r;
     Menu_draw_circle := Menu_draw_circle r; Menu_draw_line := v;
     Mouse_click_mode := Mouse_click_mode r; Mouse_hover_mode :=
     Mouse_hover_mode r; Size_menu := Size_menu r; Size_toolbar :=
     Size_toolbar r; Size_canvas := Size_canvas r; render_menu_locals :=
     render_menu_locals r; window_should_close := window_should_close r;
     file_dialog_open := file_dialog_open r |}.

Definition set_Mouse_click_mode (v : ClickMode) (r : Statics) : Statics :=
  {| callback_data := callback_data r; toolbar := toolbar r;
     Menu_draw_circle := Menu_draw_circle r; Menu_draw_line :=
     Menu_draw_line r; Mouse_click_mode := v; Mouse_hover_mode :=
     Mouse_hover_mode r; Size_menu := Size_menu r; Size_toolbar :=
     Size_toolbar r; Size_canvas := Size_canvas r; render_menu_locals :=
     render_menu_locals r; window_should_close := window_should_close r;
     file_dialog_open := file_dialog_open r |}.

Definition set_Size_toolbar (v : ImVec2) (r : Statics) : Statics :=
  {| callback_data := callback_data r; toolbar := toolbar r;
     Menu_draw_circle := Menu_draw_circle r; Menu_draw_line :=
     Menu_draw_line r; Mouse_click_mode := Mouse_click_mode r;
     Mouse_hover_mode := Mouse_hover_mode r; Size_menu := Size_menu r;
     Size_toolbar := v; Size_canvas := Size_canvas r; render_menu_locals :=
     render_menu_locals r; window_should_close := window_should_close r;
     file_dialog_open := file_dialog_open r |}.

Definition set_Size_canvas (v : ImVec2) (r : Statics) : Statics :=
  {| callback_data := callback_data r; toolbar := toolbar r;
     Menu_draw_circle := Menu_draw_circle r; Menu_draw_line :=
     Menu_draw_line r; Mouse_click_mode := Mouse_click_mode r;
     Mouse_hover_mode := Mouse_hover_mode r; Size_menu := Size_menu r;
     Size_toolbar := Size_toolbar r; Size_canvas := v; render_menu_locals :=
     render_menu_locals r; window_should_close := window_should_close r;
     file_dialog_open := file_dialog_open r |}.

Definition set_render_menu_locals (v : MenuLocals) (r : Statics) : Statics :=
  {| callback_data := callback_data r; toolbar := toolbar r;
     Menu_draw_circle := Menu_draw_circle r; Menu_draw_line :=
     Menu_draw_line r; Mouse_click_mode := Mouse_click_mode r;
     Mouse_hover_mode := Mouse_hover_mode r; Size_menu := Size_menu r;
     Size_toolbar := Size_toolbar r; Size_canvas := Size_canvas r;
     render_menu_locals := v; window_should_close := window_should_close r;
     file_dialog_open := file_dialog_open r |}.

Definition set_window_should_close (v : bool) (r : Statics) : Statics :=
  {| callback_data := callback_data r; toolbar := toolbar r;
     Menu_draw_circle := Menu_draw_circle r; Menu_draw_line :=
     Menu_draw_line r; Mouse_click_mode := Mouse_click_mode r;
     Mouse_hover_mode := Mouse_hover_mode r; Size_menu := Size_menu r;
     Size_toolbar := Size_toolbar r; Size_canvas := Size_canvas r;
     render_menu_locals := render_menu_locals r; window_should_close := v;
     file_dialog_open := file_dialog_open r |}.

Definition set_file_dialog_open (v : bool) (r : Statics) : Statics :=
  {| callback_data := callback_data r; toolbar := toolbar r;
     Menu_draw_circle := Menu_draw_circle r; Menu_draw_line :=
     Menu_draw_line r; Mouse_click_mode := Mouse_click_mode r;
     Mouse_hover_mode := Mouse_hover_mode r; Size_menu := Size_menu r;
     Size_toolbar := Size_toolbar r; Size_canvas := Size_canvas r;
     render_menu_locals := render_menu_locals r; window_should_close :=
     window_should_close r; file_dialog_open := v |}.

Definition set_mem (v : Memory) (r : World) : World :=
  {| mem := v; gl := gl r; frame := frame r; statics := statics r |}.

Definition set_gl (v : GLContext) (r : World) : World :=
  {| mem := mem r; gl := v; frame := frame r; statics := statics r |}.

Definition set_frame (v : Frame) (r : World) : World :=
  {| mem := mem r; gl := gl r; frame := v; statics := statics r |}.

Definition set_statics (v : Statics) (r : World) : World :=
  {| mem := mem r; gl := gl r; frame := frame r; statics := v |}.

Definition upd_mem (f : Memory -> Memory) (w : World) : World :=
  set_mem (f (mem w)) w.
Definition upd_gl (f : GLContext -> GLContext) (w : World) : World :=
  set_gl (f (gl w)) w.
Definition upd_frame (f : Frame -> Frame) (w : World) : World :=
  set_frame (f (frame w)) w.
Definition upd_statics (f : Statics -> Statics) (w : World) : World :=
  set_statics (f (statics w)) w.
Definition upd_toolbar (f : ToolbarStatics -> ToolbarStatics) (w : World) : World :=
  upd_statics (fun st => set_toolbar (f (toolbar st)) st) w.
Definition upd_menu_locals (f : MenuLocals -> MenuLocals) (w : World) : World :=
  upd_statics (fun st => set_render_menu_locals (f (render_menu_locals st)) st) w.

(** An object together with the world it lives in: the state of a member
    function. *)
Record Env (O : Type) : Type := { this : O; world : World }.
Arguments this {O} _.
Arguments world {O} _.
Arguments Build_Env {O} _ _.

Definition upd_this {O} (f : O -> O) (e : Env O) : Env O :=
  {| this := f (this e); world := world e |}.
Definition upd_world {O} (f : World -> World) (e : Env O) : Env O :=
  {| this := this e; world := f (world e) |}.

(** Run a computation on the world from inside a member function. *)
Definition liftW {O A} (m : M World A) : M (Env O) A := fun e =>
  match m (world e) with
  | Ret a w => Ret a {| this := this e; world := w |}
  | Raise x w => Raise x {| this := this e; world := w |}
  | Undefined => Undefined
  end.

(** ** The wrappers the sources call

    [Image], [ImageUtils], [ImageVector], [Texture2D], [Program] and
    [ImGuiUtils] are declared in headers outside the sources at hand; the
    definitions below follow the data model of the specification.  What
    the pixels of a result are is left open ([PixelOps]). *)

Class PixelOps : Type := {
  (* pixels of a file, as loaded with the given flip argument
     ([None]: the constructor's default) *)
  decode : option bool -> Bitmap -> Bitmap;
  grayscale_pixels : Bitmap -> Bitmap;
  blur_pixels : Bitmap -> Bitmap;
  circle_pixels : Bitmap -> float -> float -> Bitmap
}.

Module Image.

(** Modelled from the spec: [Image] is "an in-memory raster buffer with
    width/height/channel count".  The pixels an [Image] points to; an
    image without a live buffer reads as the empty bitmap. *)
Definition read (w : World) (img : Image) : Bitmap :=
  default empty_bitmap (img_data img ≫= fun a => heap (mem w) !! a).

(** Modelled from the spec: a new instance is a new buffer; addresses are
    never handed out twice, so an address identifies an instance. *)
Definition alloc (bm : Bitmap) : M World N := fun w =>
  let a := heap_next (mem w) in
  Ret a (upd_mem (fun m =>
           set_heap (<[a := bm]> (heap m))
             (set_heap_next (a + 1)%N
                (set_mem_events (mem_events m ++ [Alloc a]) m))) w).

(** Modelled from the spec: a new [Image] instance for the raster [bm],
    with its "width/height/channel count". *)
Definition of_bitmap (bm : Bitmap) : M World Image :=
  a ← alloc bm;
  mret {| img_data := Some a; img_width := bm_width bm;
          img_height := bm_height bm; img_n_channels := bm_channels bm |}.

(** The image of a load that failed: no buffer. *)
Definition null : Image :=
  {| img_data := None; img_width := 0%N; img_height := 0%N; img_n_channels := 0%N |}.

(** Modelled from the spec: [Image::free] releases the instance. *)
Definition free (img : Image) : M World unit :=
  match img_data img with
  | Some a =>
      modify (upd_mem (fun m =>
        set_heap (delete a (heap m))
          (set_mem_events (mem_events m ++ [Free a]) m)))
  | None => mret tt
  end.

(** Modelled from the spec: [Image::save] "writes image files to a
    filesystem path". *)
Definition save (img : Image) (path : string) : M World unit :=
  modify (fun w => upd_mem (fun m => set_files (<[path := read w img]> (files m)) m) w).

(** Modelled from the spec: [Image(path, flip)] "reads image files from a
    filesystem path".  Of a load that fails the spec says that it is "not
    handled in the shown code" and that the error signalling of the image
    library "is not inspected": the callers go on with the object they
    were given.  What that object holds is not specified; the model takes
    it to be an image without a buffer.  The properties below that say
    what an operation loads are stated for files that load. *)
Definition Image `{PixelOps} (path : string) (flip : option bool) : M World Image :=
  w ← gets (fun w => w);
  match files (mem w) !! path with
  | Some bm => of_bitmap (decode flip bm)
  | None => mret null
  end.

End Image.

Module ImageUtils.

(** Modelled from the spec: an image is "replaced wholesale (not mutated
    in place) on every edit operation (grayscale, blur, circle draw), with
    the previous instance released before assignment".  The callers assign
    the result of the helper to [m_image] and release nothing themselves,
    so the release is the helper's: it converts the pixels of its
    argument, releases the argument and returns a new instance. *)
Definition to_grayscale `{PixelOps} (image : Image) : M World Image :=
  w ← gets (fun w => w);
  let pixels := grayscale_pixels (Image.read w image) in
  Image.free image;;
  Image.of_bitmap pixels.

(** Modelled from the spec: as [to_grayscale], for the 9x9 average filter. *)
Definition blur `{PixelOps} (image : Image) : M World Image :=
  w ← gets (fun w => w);
  let pixels := blur_pixels (Image.read w image) in
  Image.free image;;
  Image.of_bitmap pixels.

(** The name the dialog uses for the same conversion. *)
Definition to_gray `{PixelOps} (image : Image) : M World Image :=
  to_grayscale image.

End ImageUtils.

Module ImageVector.

(** Modelled from the spec: "simple vector annotations (circle/line
    drawing) composited back into the raster image".  The vector image has
    a surface of its own, initialised from the image, drawn on, saved and
    released by its own [free]. *)
Record t : Type := { surface : N }.

(** Modelled from the spec: the surface starts as a copy of the image. *)
Definition ImageVector (image : Image) : M World t :=
  w ← gets (fun w => w);
  a ← Image.alloc (Image.read w image);
  mret {| surface := a |}.

(** Modelled from the spec: the circle is drawn on the surface. *)
Definition draw_circle `{PixelOps} (v : t) (x y : float) : M World unit :=
  modify (upd_mem (fun m =>
    set_heap (alter (fun bm => circle_pixels bm x y) (surface v) (heap m)) m)).

(** Modelled from the spec: the surface is written "to a filesystem
    path". *)
Definition save (v : t) (path : string) : M World unit :=
  modify (upd_mem (fun m =>
    set_files (<[path := default empty_bitmap (heap m !! surface v)]> (files m)) m)).

(** Modelled from the spec: the surface is released explicitly. *)
Definition free (v : t) : M World unit :=
  modify (upd_mem (fun m =>
    set_heap (delete (surface v) (heap m))
      (set_mem_events (mem_events m ++ [Free (surface v)]) m))).

End ImageVector.

Module Texture2D.

(** Modelled from the spec: a texture is "a GPU-resident copy of an
    Image". *)
Definition upload (id : GLuint) (bm : Bitmap) : World -> World :=
  upd_gl (fun g => set_gl_textures (<[id := bm]> (gl_textures g)) g).

(** Modelled from the spec: [Texture2D(GLuint id)] reconstructs a
    "lightweight handle" from an identifier. *)
Definition of_id (id : GLuint) : Texture2D :=
  {| tex_id := id; tex_width := 0%N; tex_height := 0%N |}.

(** Modelled from the spec: a texture is "a GPU-resident copy of an
    Image".  [set_image] is a member function called on [m_texture], the
    object whose [id] the callers go on reading in the frames that follow;
    it makes that object the copy of the given image.  The model uploads
    the pixels under the identifier the object has. *)
Definition set_image (t : Texture2D) (image : Image) : M World Texture2D := fun w =>
  Ret {| tex_id := tex_id t; tex_width := img_width image; tex_height := img_height image |}
      (upload (tex_id t) (Image.read w image) w).

(** Modelled from the spec: [attach] binds the texture for display. *)
Definition attach (t : Texture2D) : M World unit :=
  modify (upd_gl (set_gl_bound_texture (Some (tex_id t)))).

(** Modelled from the spec: a texture "must be explicitly released". *)
Definition free (t : Texture2D) : M World unit :=
  modify (upd_gl (fun g => set_gl_textures (delete (tex_id t) (gl_textures g)) g)).

(** Modelled from the spec: the constructor creates the GPU-resident
    copy under a fresh identifier. *)
Definition Texture2D (image : Image) : M World Texture2D := fun w =>
  let id := gl_next (gl w) in
  Ret {| tex_id := id; tex_width := img_width image; tex_height := img_height image |}
      (upload id (Image.read w image) (upd_gl (set_gl_next (id + 1)%N) w)).

End Texture2D.

Module Program.

(** Modelled from the spec: [Program(GLuint id)] reconstructs a
    "lightweight handle" from an identifier. *)
Definition of_id (id : GLuint) : Program :=
  {| prog_id := id; prog_failed := false |}.

(** Modelled from the spec: "shader-compilation failure (vertex or
    fragment stage)", recorded when the program is built. *)
Definition has_failed (p : Program) : bool := prog_failed p.

(** Modelled from the spec: [use] makes the program the current one. *)
Definition use (p : Program) : M World unit :=
  modify (upd_gl (set_gl_program_in_use (Some (prog_id p)))).

(** Modelled from the spec: [set_uniforms] gives each named uniform of
    the program its value. *)
Definition set_uniforms (p : Program) (uniforms : list (string * Uniform)) : M World unit :=
  modify (upd_gl (fun g =>
    set_gl_uniforms
      (foldl (fun us nv => <[(prog_id p, nv.1) := nv.2]> us) (gl_uniforms g) uniforms) g)).

(** Modelled from the spec: "release is explicit". *)
Definition free (p : Program) : M World unit :=
  modify (upd_gl (fun g => set_gl_programs (gl_programs g ∖ {[prog_id p]}) g)).

(** Modelled from the spec: a shader program is "a GPU-compiled pair of
    vertex/fragment stages"; it has failed when its "vertex or fragment
    stage" does not compile. *)
Definition Program (path_vert path_frag : string) : M World Program := fun w =>
  let id := gl_next (gl w) in
  Ret {| prog_id := id;
         prog_failed := bool_decide (path_vert ∈ gl_broken (gl w))
                        || bool_decide (path_frag ∈ gl_broken (gl w)) |}
      (upd_gl (fun g => set_gl_next (id + 1)%N
                          (set_gl_programs ({[id]} ∪ gl_programs g) g)) w).

End Program.

Module ImGuiUtils.

(** Modelled from the spec: the cursor position of "pixel-value/subset
    tooltips" and annotations, relative to the given origin. *)
Definition get_mouse_position (origin : ImVec2) : M World ImVec2 :=
  gets (fun w =>
    let p := MousePos (input (frame w)) in
    (Float32.sub p.1 origin.1, Float32.sub p.2 origin.2)).

End ImGuiUtils.

(** The part of ImGui that the sources use and that the state keeps: the
    draw list of the current window.  Window placement and styling calls
    leave the modelled state alone. *)
Module ImGui.

Definition AddCallback (cb : ImDrawCallback)
    (data : option (Program * Texture2D)) : M World unit :=
  modify (upd_frame (fun f => set_draw_list (draw_list f ++ [CmdCallback cb data]) f)).

Definition Image (texture : GLuint) (size : ImVec2) : M World unit :=
  modify (upd_frame (fun f => set_draw_list (draw_list f ++ [CmdImage texture size]) f)).

Definition NewFrame : M World unit :=
  modify (upd_frame (fun f => set_draw_list [] (set_tooltips [] f))).

End ImGui.

(** The OpenGL backend replays a draw list when the frame is rendered:
    a callback command calls its function ([user_callback] dispatches on
    it), [ImDrawCallback_ResetRenderState] restores ImGui's own render
    state, and any other command is drawn with the program then in use. *)
Module ImGui_ImplOpenGL3.

Definition exec (user_callback : ImDrawCallback -> option (Program * Texture2D) -> M World unit)
    (cmd : ImDrawCmd) : M World unit :=
  match cmd with
  | CmdCallback ImDrawCallback_ResetRenderState _ =>
      modify (upd_gl (set_gl_program_in_use None))
  | CmdCallback cb data => user_callback cb data
  | CmdImage texture _ =>
      modify (upd_gl (fun g =>
        set_gl_drawn (gl_drawn g ++ [(gl_program_in_use g, texture)]) g))
  end.

Definition RenderDrawData
    (user_callback : ImDrawCallback -> option (Program * Texture2D) -> M World unit)
    : M World unit :=
  cmds ← gets (fun w => draw_list (frame w));
  foldl (fun done cmd => done;; exec user_callback cmd) (mret tt) cmds.

End ImGui_ImplOpenGL3.

(** ** The canvas ([ui/canvas.cpp])

    The model follows the member functions as they are defined; the
    header at hand declares a later revision of the class (a constructor
    with a path, an [ImageVG] member), which these definitions do not
    use. *)

Module Canvas.

(** [m_program] is a [Program*] into [m_programs].  Nodes of an
    [unordered_map] never move, so the pointer is modelled by the key of
    the node it points to; it dangles when that key is not in the map. *)
Record t : Type := {
  m_image : Image;
  m_texture : Texture2D;
  m_programs : gmap string Program;
  m_program : string;
  m_zoom : float
}.

Definition set_m_image (v : Image) (c : t) : t :=
  {| m_image := v; m_texture := m_texture c; m_programs := m_programs c;
     m_program := m_program c; m_zoom := m_zoom c |}.
Definition set_m_texture (v : Texture2D) (c : t) : t :=
  {| m_image := m_image c; m_texture := v; m_programs := m_programs c;
     m_program := m_program c; m_zoom := m_zoom c |}.
Definition set_m_program (v : string) (c : t) : t :=
  {| m_image := m_image c; m_texture := m_texture c; m_programs := m_programs c;
     m_program := v; m_zoom := m_zoom c |}.
Definition set_m_zoom (v : float) (c : t) : t :=
  {| m_image := m_image c; m_texture := m_texture c; m_programs := m_programs c;
     m_program := m_program c; m_zoom := v |}.

(** [&m_programs.at(key)]: [at] throws [std::out_of_range] for a key that
    is not in the map. *)
Definition programs_at (programs : gmap string Program) (key : string)
  {S} : M S string :=
  match programs !! key with
  | Some _ => mret key
  | None => throw out_of_range
  end.

(** [*m_program] *)
Definition deref_m_program : M (Env t) Program := fun e =>
  match m_programs (this e) !! m_program (this e) with
  | Some p => Ret p e
  | None => Undefined
  end.

(** The callback reads the static [callback_data] and the viewport size
    of the draw data, and nothing of any canvas object. *)
Definition draw_with_custom_shader : M World unit :=
  cd ← gets (fun w => callback_data (statics w));
  let program := Program.of_id cd.1 in
  let texture := Texture2D.of_id cd.2 in
  size_viewport ← gets (fun w => DisplaySize (input (frame w)));
  let projection2d :=
    glm_ortho Float32.zero size_viewport.1 size_viewport.2 Float32.zero in
  let view := mat4_identity in
  let model := mat4_identity in
  let transformation := mat4_mul (mat4_mul projection2d view) model in
  let uniforms := [("transformation"%string, UniformMat4 transformation);
                   ("texture2d"%string, UniformTexture texture)] in
  Program.use program;;
  Program.set_uniforms program uniforms.

Definition use_shader : M (Env t) unit :=
  program ← deref_m_program;
  c ← gets this;
  liftW (modify (upd_statics
    (set_callback_data (prog_id program, tex_id (m_texture c)))));;
  liftW (ImGui.AddCallback Canvas_draw_with_custom_shader None).

Definition unuse_shader : M (Env t) unit :=
  liftW (ImGui.AddCallback ImDrawCallback_ResetRenderState None).

Definition set_shader (key : string) : M (Env t) unit :=
  c ← gets this;
  p ← programs_at (m_programs c) key;
  modify (upd_this (set_m_program p)).

(** The two tooltip members are of classes outside the sources; a call
    of their [render] is recorded with its arguments. *)
Definition render_image (y_offset : float) : M (Env t) unit :=
  use_shader;;
  c ← gets this;
  liftW (Texture2D.attach (m_texture c));;
  let size_image :=
    (Float32.mul (m_zoom c) (Float32.of_Z (Z.of_N (tex_width (m_texture c)))),
     Float32.mul (m_zoom c) (Float32.of_Z (Z.of_N (tex_height (m_texture c))))) in
  liftW (ImGui.Image (tex_id (m_texture c)) size_image);;
  w ← gets world;
  when (IsItemClicked (input (frame w))
        && bool_decide (Mouse_click_mode (statics w) = DRAW_CIRCLE))
    (liftW (modify (upd_toolbar (set_Toolbar_draw_circle true)));;
     liftW (modify (upd_statics (set_Menu_draw_circle true))));;
  when (IsItemHovered (input (frame w)))
    (match Mouse_hover_mode (statics w) with
     | IMAGE_SUBSET =>
         liftW (modify (upd_frame (fun f =>
           set_tooltips (tooltips f ++ [TooltipImage_render y_offset (m_zoom c)]) f)))
     | PIXEL_VALUE =>
         liftW (modify (upd_frame (fun f =>
           set_tooltips (tooltips f ++ [TooltipPixel_render y_offset]) f)))
     | HoverMode_NONE => mret tt
     end);;
  unuse_shader.

Definition render : M (Env t) unit :=
  w ← gets world;
  let size_display := DisplaySize (input (frame w)) in
  let y_offset := Float32.add (Size_menu (statics w)).2 (Size_toolbar (statics w)).2 in
  liftW (modify (upd_statics
    (set_Size_canvas (size_display.1, Float32.sub size_display.2 y_offset))));;
  (* SetNextWindowPos, SetNextWindowSize, PushStyleVar, Begin: placement
     and style of the window *)
  render_image y_offset
  (* PopStyleVar, End *).

Definition draw_circle `{PixelOps} : M (Env t) unit :=
  w ← gets world;
  let y_offset := Float32.add (Size_menu (statics w)).2 (Size_toolbar (statics w)).2 in
  position_mouse_img ← liftW (ImGuiUtils.get_mouse_position (Float32.zero, y_offset));
  (* std::cout: the position is printed *)
  c ← gets this;
  image_vector ← liftW (ImageVector.ImageVector (m_image c));
  liftW (ImageVector.draw_circle image_vector position_mouse_img.1 position_mouse_img.2);;
  let path_image_out := "/tmp/image.png"%string in
  liftW (ImageVector.save image_vector path_image_out);;
  liftW (ImageVector.free image_vector);;
  liftW (Image.free (m_image c));;
  img ← liftW (Image.Image path_image_out (Some false));
  modify (upd_this (set_m_image img));;
  c ← gets this;
  tex ← liftW (Texture2D.set_image (m_texture c) (m_image c));
  modify (upd_this (set_m_texture tex));;
  liftW (modify (upd_statics (set_Mouse_click_mode ClickMode_NONE))).

Definition change_image `{PixelOps} (path_image : string) : M (Env t) unit :=
  c ← gets this;
  liftW (Image.free (m_image c));;
  img ← liftW (Image.Image path_image (Some false));
  modify (upd_this (set_m_image img));;
  c ← gets this;
  tex ← liftW (Texture2D.set_image (m_texture c) (m_image c));
  modify (upd_this (set_m_texture tex)).

Definition save_image (path_image : string) : M (Env t) unit :=
  c ← gets this;
  liftW (Image.save (m_image c) path_image).

Definition to_grayscale `{PixelOps} : M (Env t) unit :=
  c ← gets this;
  img ← liftW (ImageUtils.to_grayscale (m_image c));
  modify (upd_this (set_m_image img));;
  c ← gets this;
  tex ← liftW (Texture2D.set_image (m_texture c) (m_image c));
  modify (upd_this (set_m_texture tex));;
  c ← gets this;
  p ← programs_at (m_programs c) "monochrome";
  modify (upd_this (set_m_program p)).

Definition blur `{PixelOps} : M (Env t) unit :=
  c ← gets this;
  img ← liftW (ImageUtils.blur (m_image c));
  modify (upd_this (set_m_image img));;
  c ← gets this;
  tex ← liftW (Texture2D.set_image (m_texture c) (m_image c));
  modify (upd_this (set_m_texture tex)).

Definition free : M (Env t) unit :=
  c ← gets this;
  liftW (Texture2D.free (m_texture c));;
  liftW (map_fold (fun _ p rest => rest;; Program.free p) (mret tt) (m_programs c)).

Definition zoom_in : M (Env t) unit :=
  modify (upd_this (fun c => set_m_zoom (Float32.mul (m_zoom c) Float32.two) c)).

Definition zoom_out : M (Env t) unit :=
  modify (upd_this (fun c => set_m_zoom (Float32.div (m_zoom c) Float32.two) c)).

(** The constructor.  Members are initialised in the order of the
    initialiser list; the body then tests the program [m_program] points
    to, which is the entry for "color". *)
Definition Canvas `{PixelOps} : M World t :=
  image ← Image.Image "./assets/images/nature.png" (Some false);
  texture ← Texture2D.Texture2D image;
  color ← Program.Program "assets/shaders/basic.vert" "assets/shaders/color.frag";
  grayscale ← Program.Program "assets/shaders/basic.vert" "assets/shaders/grayscale.frag";
  monochrome ← Program.Program "assets/shaders/basic.vert" "assets/shaders/monochrome.frag";
  let programs : gmap string Program :=
    <["color"%string := color]> (<["grayscale"%string := grayscale]>
      (<["monochrome"%string := monochrome]> ∅)) in
  p ← programs_at programs "color";
  let c := {| m_image := image; m_texture := texture; m_programs := programs;
              m_program := p; m_zoom := Float32.one |} in
  match programs !! m_program c with
  | None => undefined
  | Some program =>
      if Program.has_failed program then throw ShaderException else mret c
  end.

End Canvas.

(** ** The dialog ([dialog.cpp]) *)

Module Dialog.

(** [m_window] refers to the one window of the process; closing it sets
    the static [window_should_close]. *)
Record t : Type := {
  m_image : Image;
  m_texture : Texture2D;
  m_program : Program
}.

Definition set_m_image (v : Image) (d : t) : t :=
  {| m_image := v; m_texture := m_texture d; m_program := m_program d |}.
Definition set_m_texture (v : Texture2D) (d : t) : t :=
  {| m_image := m_image d; m_texture := v; m_program := m_program d |}.

(** The dialog's callback gets its program and texture through the
    pointer attached to the command. *)
Definition draw_with_custom_shader (UserCallbackData : option (Program * Texture2D))
    : M World unit :=
  match UserCallbackData with
  | None => undefined
  | Some (program, texture) =>
      size ← gets (fun w => DisplaySize (input (frame w)));
      let projection2d := glm_ortho Float32.zero size.1 Float32.zero size.2 in
      let view := mat4_identity in
      let model :=
        glm_translate mat4_identity Float32.zero
          (Float32.sub size.2 (Float32.of_Z (Z.of_N (tex_height texture))))
          Float32.zero in
      let transformation := mat4_mul (mat4_mul projection2d view) model in
      let uniforms := [("ProjMtx"%string, UniformMat4 transformation);
                       ("Texture"%string, UniformTexture texture)] in
      Program.use program;;
      Program.set_uniforms program uniforms
  end.

(** What the backend calls for each callback of the two components. *)
Definition user_callback (cb : ImDrawCallback)
    (data : option (Program * Texture2D)) : M World unit :=
  match cb with
  | Canvas_draw_with_custom_shader => Canvas.draw_with_custom_shader
  | Dialog_draw_with_custom_shader => draw_with_custom_shader data
  | ImDrawCallback_ResetRenderState => modify (upd_gl (set_gl_program_in_use None))
  end.

(** [ImGui::MenuItem(label, NULL, &flag)] toggles the flag when the item
    is clicked. *)
Definition MenuItem (item : MenuItem) (flag : bool) (w : World) : bool :=
  if bool_decide (item ∈ MenuItemsClicked (input (frame w))) then negb flag else flag.

Definition render_menu `{PixelOps} : M (Env t) unit :=
  (* menu buttons listeners *)
  w ← gets world;
  when (open_image (render_menu_locals (statics w)))
    ((* std::cout; ImGuiFileDialog::Instance()->OpenDialog *)
     liftW (modify (upd_statics (set_file_dialog_open true)));;
     liftW (modify (upd_menu_locals (set_open_image false))));;
  (* display file dialog *)
  w ← gets world;
  when (file_dialog_open (statics w))
    (match FileDialogClosed (input (frame w)) with
     | None => mret tt
     | Some result =>
         match result with
         | Some path_image =>
             d ← gets this;
             liftW (Image.free (m_image d));;
             img ← liftW (Image.Image path_image None);
             modify (upd_this (set_m_image img));;
             d ← gets this;
             tex ← liftW (Texture2D.set_image (m_texture d) (m_image d));
             modify (upd_this (set_m_texture tex))
         | None => mret tt
         end;;
         liftW (modify (upd_statics (set_file_dialog_open false)))
     end);;
  (* convert opened image to grayscale *)
  w ← gets world;
  when (to_gray (render_menu_locals (statics w)))
    (d ← gets this;
     img ← liftW (ImageUtils.to_gray (m_image d));
     modify (upd_this (set_m_image img));;
     d ← gets this;
     tex ← liftW (Texture2D.set_image (m_texture d) (m_image d));
     modify (upd_this (set_m_texture tex));;
     liftW (modify (upd_menu_locals (set_to_gray false))));;
  w ← gets world;
  when (quit_app (render_menu_locals (statics w)))
    (liftW (modify (upd_statics (set_window_should_close true))));;
  (* menu items act like toggle buttons *)
  liftW (modify (fun w => upd_menu_locals (fun l =>
    {| open_image := MenuItem Item_Open (open_image l) w;
       quit_app := MenuItem Item_Quit (quit_app l) w;
       to_gray := MenuItem Item_To_gray (to_gray l) w |}) w)).

Definition render_components `{PixelOps} : M (Env t) unit :=
  d ← gets this;
  liftW (Texture2D.attach (m_texture d));;
  liftW (ImGui.Image (tex_id (m_texture d))
           (Float32.of_Z (Z.of_N (tex_width (m_texture d))),
            Float32.of_Z (Z.of_N (tex_height (m_texture d)))));;
  render_menu.

Definition render `{PixelOps} : M (Env t) unit :=
  liftW ImGui.NewFrame;;
  (* SetNextWindowSize, Begin *)
  d ← gets this;
  let callback_data := (m_program d, m_texture d) in
  liftW (ImGui.AddCallback Dialog_draw_with_custom_shader (Some callback_data));;
  render_components;;
  liftW (ImGui.AddCallback ImDrawCallback_ResetRenderState None);;
  (* End, Render *)
  liftW (ImGui_ImplOpenGL3.RenderDrawData user_callback).

Definition free : M (Env t) unit :=
  d ← gets this;
  liftW (Texture2D.free (m_texture d));;
  liftW (Program.free (m_program d)).

Definition Dialog `{PixelOps} : M World t :=
  image ← Image.Image "./assets/images/grass_logo.png" None;
  texture ← Texture2D.Texture2D image;
  program ← Program.Program "assets/shaders/basic.vert" "assets/shaders/basic.frag";
  if Program.has_failed program then throw ShaderException
  else
    (* ImGui::CreateContext and the initialisation of the two backends *)
    mret {| m_image := image; m_texture := texture; m_program := program |}.

End Dialog.

(** ** The toolbar ([ui/toolbar.cpp]) *)

Module Toolbar.

(** [ImGui::Button] returns true in the frame the button is clicked; a
    button inside [BeginDisabled(true)] cannot be clicked. *)
Definition Button (b : ToolbarButton) (disabled : bool) (w : World) : bool :=
  negb disabled && bool_decide (b ∈ ButtonsClicked (input (frame w))).

(** Colours, window placement, [SameLine], tooltips of the buttons and
    the two colour editors leave the modelled state alone. *)
Definition render : M World unit :=
  w ← gets (fun w => w);
  let size_font := FontSize (input (frame w)) in
  let size_display := DisplaySize (input (frame w)) in
  modify (upd_statics
    (set_Size_toolbar (size_display.1, Float32.mul Float32.two size_font)));;
  when (Button ICON_FA_FOLDER_OPEN false w)
    (modify (upd_toolbar (set_Toolbar_open_image true)));;
  when (Button ICON_FA_SAVE false w)
    (modify (upd_toolbar (set_Toolbar_save_image true)));;
  when (Button ICON_FA_WINDOW_CLOSE false w)
    (modify (upd_toolbar (set_Toolbar_quit_app true)));;
  when (Button ICON_FA_PLUS_CIRCLE false w)
    (modify (upd_toolbar (set_Toolbar_zoom_in true)));;
  when (Button ICON_FA_MINUS_CIRCLE false w)
    (modify (upd_toolbar (set_Toolbar_zoom_out true)));;
  w1 ← gets (fun w => w);
  when (Button ICON_FA_CIRCLE (Toolbar_draw_circle (toolbar (statics w1))) w)
    (modify (upd_toolbar (set_Toolbar_draw_circle true));;
     modify (upd_statics (set_Menu_draw_circle true)));;
  w2 ← gets (fun w => w);
  when (Button ICON_FA_PEN (Toolbar_draw_line (toolbar (statics w2))) w)
    (modify (upd_toolbar (set_Toolbar_draw_line true));;
     modify (upd_statics (set_Menu_draw_line true)));;
  (* the three radio buttons write the mode of the one that is clicked *)
  match RadioClicked (input (frame w)) with
  | Some mode => modify (upd_toolbar (set_Toolbar_hover_mode mode))
  | None => mret tt
  end.

End Toolbar.

(** ** Sequences of calls *)

(** [times n m] calls [m] [n] times in a row. *)
Fixpoint times {S} (n : nat) (m : M S unit) : M S unit :=
  match n with
  | O => mret tt
  | Datatypes.S k => m;; times k m
  end.

(** The member functions a client can call on a canvas before [free].
    Those that read the frame's input come with the input of the frame in
    which they are called. *)
Inductive CanvasOp : Type :=
  | Op_render (i : Input)
  | Op_set_shader (key : string)
  | Op_change_image (path_image : string)
  | Op_save_image (path_image : string)
  | Op_to_grayscale
  | Op_blur
  | Op_zoom_in
  | Op_zoom_out
  | Op_draw_circle (i : Input).

Definition call `{PixelOps} (op : CanvasOp) : M (Env Canvas.t) unit :=
  match op with
  | Op_render i => liftW (modify (upd_frame (set_input i)));; Canvas.render
  | Op_set_shader key => Canvas.set_shader key
  | Op_change_image path_image => Canvas.change_image path_image
  | Op_save_image path_image => Canvas.save_image path_image
  | Op_to_grayscale => Canvas.to_grayscale
  | Op_blur => Canvas.blur
  | Op_zoom_in => Canvas.zoom_in
  | Op_zoom_out => Canvas.zoom_out
  | Op_draw_circle i => liftW (modify (upd_frame (set_input i)));; Canvas.draw_circle
  end.

(** Run the calls one after the other.  A call that throws leaves the
    canvas as it was at the throw, and the client goes on with the next
    call; [None] when a call has undefined behaviour. *)
Fixpoint run `{PixelOps} (ops : list CanvasOp) (e : Env Canvas.t) : option (Env Canvas.t) :=
  match ops with
  | [] => Some e
  | op :: rest =>
      match final_state (call op e) with
      | Some e' => run rest e'
      | None => None
      end
  end.

(** The program [m_program] points to is an entry of [m_programs] that
    has not been released. *)
Definition program_pointer_live (e : Env Canvas.t) : Prop :=
  exists p, Canvas.m_programs (this e) !! Canvas.m_program (this e) = Some p
            /\ prog_id p ∈ gl_programs (gl (world e)).

(** What the member functions maintain: the collection has its
    "monochrome" entry, [m_program] points to an entry, and no entry has
    been released. *)
Definition canvas_inv (e : Env Canvas.t) : Prop :=
  is_Some (Canvas.m_programs (this e) !! "monochrome"%string)
  /\ is_Some (Canvas.m_programs (this e) !! Canvas.m_program (this e))
  /\ forall k p, Canvas.m_programs (this e) !! k = Some p ->
                 prog_id p ∈ gl_programs (gl (world e)).

(** The zoom factor after [n] calls of [zoom_in]. *)
Definition zoomed_in (n : nat) (e : Env Canvas.t) : option float :=
  (fun e' => Canvas.m_zoom (this e')) <$> final_state (times n Canvas.zoom_in e).

(** The zoom factor after [n] calls of [zoom_in] and then [n] calls of
    [zoom_out]. *)
Definition zoom_round_trip (n : nat) (e : Env Canvas.t) : option float :=
  (fun e' => Canvas.m_zoom (this e')) <$>
    final_state ((times n Canvas.zoom_in;; times n Canvas.zoom_out) e).

(** ** A concrete process, for examples *)

Definition plain_pixels : PixelOps :=
  {| decode := fun _ bm => bm;
     grayscale_pixels := fun bm => bm;
     blur_pixels := fun bm => bm;
     circle_pixels := fun bm _ _ => bm |}.

Definition idle_input : Input :=
  {| DisplaySize := (Float32.of_Z 800, Float32.of_Z 600);
     FontSize := Float32.of_Z 13;
     MousePos := (Float32.zero, Float32.zero);
     IsItemClicked := false;
     IsItemHovered := false;
     ButtonsClicked := [];
     RadioClicked := None;
     MenuItemsClicked := [];
     FileDialogClosed := None |}.

(** A frame in which the user clicks the given menu items. *)
Definition menu_click_input (items : list MenuItem) : Input :=
  {| DisplaySize := DisplaySize idle_input;
     FontSize := FontSize idle_input;
     MousePos := MousePos idle_input;
     IsItemClicked := false;
     IsItemHovered := false;
     ButtonsClicked := [];
     RadioClicked := None;
     MenuItemsClicked := items;
     FileDialogClosed := None |}.

Definition two_pixels : Bitmap :=
  {| bm_width := 2%N; bm_height := 1%N; bm_channels := 4%N;
     bm_pixels := [255; 0; 0; 255; 0; 255; 0; 255]%N |}.

(** The statics as the program starts: the initialisers of [toolbar.cpp],
    zero-initialised [callback_data]. *)
Definition statics0 : Statics :=
  {| callback_data := (0, 0)%N;
     toolbar := {| Toolbar_open_image := false; Toolbar_save_image := false;
                   Toolbar_quit_app := false; Toolbar_zoom_in := false;
                   Toolbar_zoom_out := false; Toolbar_draw_circle := false;
                   Toolbar_draw_line := false; Toolbar_hover_mode := HoverMode_NONE |};
     Menu_draw_circle := false;
     Menu_draw_line := false;
     Mouse_click_mode := ClickMode_NONE;
     Mouse_hover_mode := HoverMode_NONE;
     Size_menu := (Float32.of_Z 800, Float32.of_Z 19);
     Size_toolbar := (Float32.zero, Float32.zero);
     Size_canvas := (Float32.zero, Float32.zero);
     render_menu_locals := {| open_image := false; quit_app := false; to_gray := false |};
     window_should_close := false;
     file_dialog_open := false |}.

(** A fresh process whose asset directory holds the two images, and in
    which the shader sources in [broken] do not compile. *)
Definition world0 (broken : gset string) : World :=
  {| mem := {| heap := ∅; heap_next := 1%N; mem_events := [];
               files := <["./assets/images/nature.png"%string := two_pixels]>
                          (<["./assets/images/grass_logo.png"%string := two_pixels]> ∅) |};
     gl := {| gl_broken := broken; gl_next := 1%N; gl_programs := ∅;
              gl_textures := ∅; gl_bound_texture := None;
              gl_program_in_use := None; gl_uniforms := ∅; gl_drawn := [] |};
     frame := {| input := idle_input; draw_list := []; tooltips := [] |};
     statics := statics0 |}.

(** The canvas that [Canvas()] builds in the fresh process when every
    shader compiles, and the world it leaves. *)
Definition canvas1 : Canvas.t :=
  {| Canvas.m_image := {| img_data := Some 1%N; img_width := 2%N;
                          img_height := 1%N; img_n_channels := 4%N |};
     Canvas.m_texture := {| tex_id := 1%N; tex_width := 2%N; tex_height := 1%N |};
     Canvas.m_programs :=
       <["color"%string := {| prog_id := 2%N; prog_failed := false |}]>
         (<["grayscale"%string := {| prog_id := 3%N; prog_failed := false |}]>
            (<["monochrome"%string := {| prog_id := 4%N; prog_failed := false |}]> ∅));
     Canvas.m_program := "color";
     Canvas.m_zoom := Float32.one |}.

Definition world1 : World :=
  upd_mem (fun m => set_heap {[1%N := two_pixels]}
                      (set_heap_next 2%N (set_mem_events [Alloc 1%N] m)))
    (upd_gl (fun g => set_gl_next 5%N
                        (set_gl_programs {[2%N; 3%N; 4%N]}
                           (set_gl_textures {[1%N := two_pixels]} g)))
       (world0 ∅)).

Definition env1 : Env Canvas.t := {| this := canvas1; world := world1 |}.

(** A second canvas of the same process, showing another texture with
    the grayscale program. *)
Definition canvas2 : Canvas.t :=
  Canvas.set_m_program "grayscale"
    (Canvas.set_m_texture {| tex_id := 9%N; tex_width := 2%N; tex_height := 1%N |}
       canvas1).

(** ** Further states and sessions *)

Definition shader_keys : gset string :=
  {[ "color"%string; "grayscale"%string; "monochrome"%string ]}.

Definition canvas_ok (e : Env Canvas.t) : Prop :=
  dom (Canvas.m_programs (this e)) = shader_keys
  /\ Canvas.m_program (this e) ∈ shader_keys
  /\ gl_textures (gl (world e)) !! tex_id (Canvas.m_texture (this e))
     = Some (Image.read (world e) (Canvas.m_image (this e)))
  /\ tex_width (Canvas.m_texture (this e)) = img_width (Canvas.m_image (this e))
  /\ tex_height (Canvas.m_texture (this e)) = img_height (Canvas.m_image (this e))
  /\ (img_data (Canvas.m_image (this e)) = None
      \/ exists a, img_data (Canvas.m_image (this e)) = Some a
                   /\ is_Some (heap (mem (world e)) !! a)).


(** The zoom factor a sequence of calls leaves when only its [zoom_in]
    and [zoom_out] calls count, each doubling or halving the factor. *)
Definition zoom_after (ops : list CanvasOp) (zoom : float) : float :=
  foldl (fun z op =>
           match op with
           | Op_zoom_in => Float32.double z
           | Op_zoom_out => Float32.halve z
           | _ => z
           end) zoom ops.

(** A session on the fresh canvas, for examples. *)
Definition sample_calls : list CanvasOp :=
  [Op_blur; Op_change_image "./assets/images/grass_logo.png";
   Op_draw_circle idle_input; Op_to_grayscale; Op_set_shader "sepia";
   Op_change_image "missing.png"; Op_render idle_input].



(** A frame in which the file dialog reports the given outcome: a chosen
    path, or [None] when it was cancelled. *)
Definition file_dialog_input (result : option string) : Input :=
  {| DisplaySize := DisplaySize idle_input;
     FontSize := FontSize idle_input;
     MousePos := MousePos idle_input;
     IsItemClicked := false;
     IsItemHovered := false;
     ButtonsClicked := [];
     RadioClicked := None;
     MenuItemsClicked := [];
     FileDialogClosed := Some result |}.

(** A dialog showing the first image of the process [world1], with its
    file dialog open. *)
Definition dialog1 : Dialog.t :=
  {| Dialog.m_image := Canvas.m_image canvas1;
     Dialog.m_texture := Canvas.m_texture canvas1;
     Dialog.m_program := {| prog_id := 2%N; prog_failed := false |} |}.

Definition env_dialog1 (i : Input) : Env Dialog.t :=
  {| this := dialog1;
     world := upd_frame (set_input i)
                (upd_statics (set_file_dialog_open true) world1) |}.

(** * Properties *)

Ltac monad_unfold :=
  unfold when, liftW, gets, modify, throw, undefined in *;
  unfold mbind, M_bind, mret, M_ret in *.

Ltac canvas_unfold :=
  unfold Canvas.render, Canvas.render_image, Canvas.use_shader,
    Canvas.unuse_shader, Canvas.deref_m_program, Canvas.set_shader,
    Canvas.change_image, Canvas.save_image, Canvas.to_grayscale, Canvas.blur,
    Canvas.draw_circle, Canvas.zoom_in, Canvas.zoom_out, Canvas.programs_at,
    Canvas.draw_with_custom_shader,
    ImageUtils.to_grayscale, ImageUtils.blur, ImageVector.ImageVector,
    ImageVector.draw_circle, ImageVector.save, ImageVector.free,
    ImGuiUtils.get_mouse_position, Image.Image, Image.save, Image.free,
    Image.of_bitmap, Image.alloc,
    Texture2D.set_image, Texture2D.attach, Texture2D.upload,
    Program.use, Program.set_uniforms, ImGui.AddCallback, ImGui.Image in *.

(** ** The constructor on the fresh process *)

Example Canvas_in_fresh_process :
  @Canvas.Canvas plain_pixels (world0 ∅) = Ret canvas1 world1.
Proof. vm_compute. reflexivity. Qed.

(** ** Selecting a shader *)

Lemma set_shader_present (key : string) (e : Env Canvas.t) (p : Program) :
  Canvas.m_programs (this e) !! key = Some p ->
  Canvas.set_shader key e = Ret tt (upd_this (Canvas.set_m_program key) e).
Proof.
  intros Hk. canvas_unfold. monad_unfold. cbn. rewrite Hk. reflexivity.
Qed.

(** C1.  Selecting a key that is not in the program collection throws
    [std::out_of_range]; the canvas, and with it the selected program, is
    left as it was: nothing is selected in its place. *)
Theorem set_shader_missing_key (key : string) (e : Env Canvas.t) :
  Canvas.m_programs (this e) !! key = None ->
  Canvas.set_shader key e = Raise out_of_range e.
Proof.
  intros Hk. canvas_unfold. monad_unfold. cbn. rewrite Hk. reflexivity.
Qed.

Lemma set_shader_missing_key_witness :
  Canvas.m_programs (this env1) !! "sepia"%string = None
  /\ Canvas.set_shader "sepia" env1 = Raise out_of_range env1.
Proof.
  split; [reflexivity | apply (set_shader_missing_key "sepia" env1); reflexivity].
Defined.

(** ** Shader compilation failures at construction *)

Lemma broken_or (a b : string) (broken : gset string) :
  bool_decide (a ∈ broken) || bool_decide (b ∈ broken) = true <->
  a ∈ broken \/ b ∈ broken.
Proof. rewrite orb_true_iff, !bool_decide_eq_true. reflexivity. Qed.

Lemma Program_failed_iff (path_vert path_frag : string) (w : World) :
  forall p w', Program.Program path_vert path_frag w = Ret p w' ->
  Program.has_failed p = true <->
  path_vert ∈ gl_broken (gl w) \/ path_frag ∈ gl_broken (gl w).
Proof.
  intros p w' Hp. unfold Program.Program in Hp. injection Hp as <- _.
  unfold Program.has_failed. cbn. apply broken_or.
Qed.

(** The dialog has one program, and its constructor throws exactly when
    a stage of that program fails to compile. *)
Lemma Dialog_throws_iff_failed `{PixelOps} (w : World) :
  raises (Dialog.Dialog w) = Some ShaderException <->
  "assets/shaders/basic.vert"%string ∈ gl_broken (gl w)
  \/ "assets/shaders/basic.frag"%string ∈ gl_broken (gl w).
Proof.
  unfold Dialog.Dialog, Image.Image, Image.of_bitmap, Image.alloc,
    Texture2D.Texture2D, Program.Program, Program.has_failed.
  monad_unfold. rewrite <- broken_or.
  destruct (files (mem w) !! _); cbn;
    destruct (_ || _); cbn; split; intros; congruence.
Qed.

(** The canvas compiles three programs, but its constructor tests only
    the one [m_program] points to: it throws exactly when a stage of the
    "color" program fails to compile. *)
Lemma Canvas_throws_iff_color_failed `{PixelOps} (w : World) :
  raises (Canvas.Canvas w) = Some ShaderException <->
  "assets/shaders/basic.vert"%string ∈ gl_broken (gl w)
  \/ "assets/shaders/color.frag"%string ∈ gl_broken (gl w).
Proof.
  unfold Canvas.Canvas, Image.Image, Image.of_bitmap, Image.alloc,
    Texture2D.Texture2D, Program.Program, Program.has_failed, Canvas.programs_at.
  monad_unfold. rewrite <- broken_or.
  destruct (files (mem w) !! _); cbn -[insert lookup];
    repeat (rewrite lookup_insert_eq; cbn -[insert lookup]);
    destruct (_ || _); cbn; split; intros; congruence.
Qed.

(** C2.  In a process where only the fragment stage of the "monochrome"
    program fails to compile, [Canvas()] returns normally, with a failed
    program in its collection. *)
Theorem Canvas_constructs_with_failed_monochrome :
  exists c w p,
    @Canvas.Canvas plain_pixels (world0 {["assets/shaders/monochrome.frag"%string]})
      = Ret c w
    /\ Canvas.m_programs c !! "monochrome"%string = Some p
    /\ Program.has_failed p = true.
Proof.
  eexists _, _, _. split; [vm_compute; reflexivity |].
  split; vm_compute; reflexivity.
Qed.

(** ** Replacing the image *)

(** [change_image] releases the previous buffer and only then loads the
    new instance. *)
Lemma change_image_releases_first `{PixelOps} (path_image : string)
    (e : Env Canvas.t) (a : N) (file : Bitmap) :
  img_data (Canvas.m_image (this e)) = Some a ->
  files (mem (world e)) !! path_image = Some file ->
  exists e', Canvas.change_image path_image e = Ret tt e'
    /\ mem_events (mem (world e'))
       = mem_events (mem (world e)) ++ [Free a; Alloc (heap_next (mem (world e)))]
    /\ img_data (Canvas.m_image (this e')) = Some (heap_next (mem (world e)))
    /\ (a ≠ heap_next (mem (world e)) -> heap (mem (world e')) !! a = None).
Proof.
  intros Ha Hf. canvas_unfold. unfold Image.free. monad_unfold.
  cbn. rewrite Ha. cbn. rewrite Hf. cbn.
  eexists. split; [reflexivity|]. cbn.
  rewrite <- app_assoc. repeat split.
  intros Hne. rewrite lookup_insert_ne by congruence. apply lookup_delete_eq.
Qed.

(** [draw_circle] does the same, after the vector image has been drawn,
    saved and released. *)
Lemma draw_circle_releases_first `{PixelOps} (e : Env Canvas.t) (a : N) :
  img_data (Canvas.m_image (this e)) = Some a ->
  let n := heap_next (mem (world e)) in
  exists e', Canvas.draw_circle e = Ret tt e'
    /\ mem_events (mem (world e'))
       = mem_events (mem (world e)) ++ [Alloc n; Free n; Free a; Alloc (n + 1)%N]
    /\ img_data (Canvas.m_image (this e')) = Some (n + 1)%N
    /\ (a ≠ (n + 1)%N -> heap (mem (world e')) !! a = None).
Proof.
  intros Ha n. subst n. canvas_unfold. unfold Image.free. monad_unfold.
  cbn. rewrite Ha. cbn. rewrite lookup_insert_eq. cbn.
  eexists. split; [reflexivity|]. cbn.
  rewrite <- !app_assoc. repeat split.
  intros Hne. rewrite lookup_insert_ne by congruence. apply lookup_delete_eq.
Qed.



(** ** Which operations change the shader selection *)

(** C10.  [to_grayscale] replaces the image by its conversion, uploads it
    to the texture and selects the "monochrome" entry; [blur],
    [change_image] and [draw_circle] keep the selection.  None of them
    touches the program collection. *)
Theorem to_grayscale_selects_monochrome `{PixelOps} (e : Env Canvas.t) :
  is_Some (Canvas.m_programs (this e) !! "monochrome"%string) ->
  (exists e', Canvas.to_grayscale e = Ret tt e'
     /\ Canvas.m_program (this e') = "monochrome"%string
     /\ Canvas.m_programs (this e') = Canvas.m_programs (this e)
     /\ Image.read (world e') (Canvas.m_image (this e'))
        = grayscale_pixels (Image.read (world e) (Canvas.m_image (this e)))
     /\ gl_textures (gl (world e')) !! tex_id (Canvas.m_texture (this e'))
        = Some (grayscale_pixels (Image.read (world e) (Canvas.m_image (this e)))))
  /\ forall edit,
       edit = Canvas.blur \/ (exists path_image, edit = Canvas.change_image path_image)
       \/ edit = Canvas.draw_circle ->
       exists e', edit e = Ret tt e'
         /\ Canvas.m_program (this e') = Canvas.m_program (this e)
         /\ Canvas.m_programs (this e') = Canvas.m_programs (this e).
Proof.
  intros [p Hp]. split.
  - canvas_unfold. unfold Image.read. monad_unfold. cbn -[insert lookup delete].
    destruct (img_data (Canvas.m_image (this e))); cbn -[insert lookup delete];
      rewrite Hp; cbn -[insert lookup delete];
      (eexists; split; [reflexivity|]); cbn -[insert lookup delete];
      rewrite !lookup_insert_eq; cbn; auto.
  - intros edit [-> | [[path_image ->] | ->]];
      canvas_unfold; unfold Image.free; monad_unfold; cbn.
    + destruct (img_data (Canvas.m_image (this e))); cbn;
        (eexists; split; [reflexivity|]); cbn; auto.
    + destruct (img_data (Canvas.m_image (this e))); cbn;
        destruct (files (mem (world e)) !! path_image); cbn;
        (eexists; split; [reflexivity|]); cbn; auto.
    + destruct (img_data (Canvas.m_image (this e))); cbn;
        rewrite lookup_insert_eq; cbn;
        (eexists; split; [reflexivity|]); cbn; auto.
Qed.

Lemma to_grayscale_selects_monochrome_witness :
  is_Some (Canvas.m_programs (this env1) !! "monochrome"%string)
  /\ exists e', @Canvas.to_grayscale plain_pixels env1 = Ret tt e'
       /\ Canvas.m_program (this e') = "monochrome"%string.
Proof.
  assert (Hm : is_Some (Canvas.m_programs (this env1) !! "monochrome"%string))
    by (eexists; reflexivity).
  split; [exact Hm|].
  destruct (@to_grayscale_selects_monochrome plain_pixels env1 Hm)
    as [(e' & Hr & Hsel & _) _].
  exists e'. split; assumption.
Defined.

(** ** The active program pointer *)

Lemma canvas_inv_live (e : Env Canvas.t) : canvas_inv e -> program_pointer_live e.
Proof.
  intros (_ & [p Hp] & Hall). exists p. split; [exact Hp | exact (Hall _ _ Hp)].
Qed.

Ltac inversion_insert Hk :=
  apply lookup_insert_Some in Hk as [[_ <-] | [_ Hk]]; [set_solver|].

(** The constructor, when it returns, establishes the invariant. *)
Lemma Canvas_establishes_inv `{PixelOps} (w0 w : World) (c : Canvas.t) :
  Canvas.Canvas w0 = Ret c w -> canvas_inv {| this := c; world := w |}.
Proof.
  unfold Canvas.Canvas, Image.Image, Image.of_bitmap, Image.alloc,
    Texture2D.Texture2D, Program.Program, Program.has_failed, Canvas.programs_at.
  monad_unfold.
  destruct (files (mem w0) !! _); cbn -[insert lookup];
    repeat (rewrite lookup_insert_eq; cbn -[insert lookup]);
    (destruct (_ || _); cbn -[insert lookup]; [discriminate|]);
    intros [= <- <-]; unfold canvas_inv; cbn -[insert lookup].
  all: split; [rewrite !lookup_insert_ne, lookup_insert_eq by done; eauto|].
  all: split; [rewrite lookup_insert_eq; eauto|].
  all: intros k p Hk.
  - inversion_insert Hk. inversion_insert Hk. inversion_insert Hk.
    rewrite lookup_empty in Hk. discriminate.
  - inversion_insert Hk. inversion_insert Hk. inversion_insert Hk.
    rewrite lookup_empty in Hk. discriminate.
Qed.

(** Every call leaves a state, and the invariant holds in it: whether
    the call returned or threw. *)
Lemma call_preserves_inv `{PixelOps} (op : CanvasOp) (e : Env Canvas.t) :
  canvas_inv e ->
  exists e', final_state (call op e) = Some e' /\ canvas_inv e'.
Proof.
  intros ([pm Hm] & [p Hp] & Hall). unfold canvas_inv.
  destruct op; unfold call; canvas_unfold; monad_unfold; cbn;
    rewrite ?Hp, ?Hm; cbn;
    repeat (case_match; simplify_eq/=);
    (eexists; split; [reflexivity|]); cbn; eauto 6.
Qed.

(** C9.  From a canvas that [Canvas()] returned, every sequence of calls
    runs without undefined behaviour and ends with [m_program] pointing
    to an entry of the collection that has not been released. *)
Theorem program_pointer_always_live `{PixelOps} (w0 w : World) (c : Canvas.t)
    (ops : list CanvasOp) :
  Canvas.Canvas w0 = Ret c w ->
  exists e', run ops {| this := c; world := w |} = Some e'
    /\ program_pointer_live e'.
Proof.
  intros Hc. apply Canvas_establishes_inv in Hc.
  revert Hc. generalize {| this := c; world := w |} as e.
  induction ops as [| op rest IH]; intros e Hinv.
  - exists e. split; [reflexivity | apply canvas_inv_live; assumption].
  - destruct (call_preserves_inv op e Hinv) as (e1 & Hrun & Hinv1).
    cbn [run]. rewrite Hrun. apply IH. assumption.
Qed.

Lemma program_pointer_always_live_witness :
  @Canvas.Canvas plain_pixels (world0 ∅) = Ret canvas1 world1
  /\ exists e',
       @run plain_pixels
         [Op_set_shader "sepia"; Op_to_grayscale; Op_render idle_input;
          Op_set_shader "grayscale"; Op_zoom_in] env1 = Some e'
       /\ program_pointer_live e'.
Proof.
  split; [vm_compute; reflexivity |].
  apply (@program_pointer_always_live plain_pixels (world0 ∅) world1 canvas1).
  vm_compute; reflexivity.
Defined.

(** ** Zooming *)

Section Doubling.
Local Open Scope Z_scope.

(** A finite binary32 value is normal, with a 24-bit mantissa, or
    subnormal, with a shorter mantissa at the least exponent. *)
Lemma bounded_cases (m : positive) (e : Z) :
  bounded Float32.prec Float32.emax m e = true ->
  e <= 104 /\
  ((Z.pos (digits2_pos m) = 24 /\ -149 <= e) \/
   (Z.pos (digits2_pos m) < 24 /\ e = -149)).
Proof.
  unfold bounded, canonical_mantissa, fexp, emin, Float32.prec, Float32.emax.
  intros Hb. apply andb_prop in Hb as [Hc He].
  apply Z.eqb_eq in Hc. apply Z.leb_le in He. lia.
Qed.

Lemma bounded_intro (m : positive) (e : Z) :
  e <= 104 ->
  ((Z.pos (digits2_pos m) = 24 /\ -149 <= e) \/
   (Z.pos (digits2_pos m) < 24 /\ e = -149)) ->
  bounded Float32.prec Float32.emax m e = true.
Proof.
  unfold bounded, canonical_mantissa, fexp, emin, Float32.prec, Float32.emax.
  intros Hle Hc. apply andb_true_intro. split.
  - apply Z.eqb_eq. lia.
  - apply Z.leb_le. lia.
Qed.

Ltac fexp_unfold :=
  unfold fexp, emin, Float32.prec, Float32.emax, Zdigits2;
  cbn [digits2_pos Pos.succ]; rewrite ?Pos2Z.inj_succ.

Ltac shift_exact :=
  cbn [shr shr_record_of_loc SpecFloat.iter_pos shr_1 orb shr_m
       loc_of_shr_record round_nearest_even].

(** Rounding an exact result that already has the right shape returns it. *)
Lemma round_canonical (s : bool) (m : positive) (e : Z) :
  bounded Float32.prec Float32.emax m e = true ->
  binary_round_aux Float32.prec Float32.emax s (Z.pos m) e loc_Exact
  = S754_finite s m e.
Proof.
  intros Hb. destruct (bounded_cases _ _ Hb) as [Hle Hc].
  unfold binary_round_aux, shr_fexp.
  assert (Hf : fexp Float32.prec Float32.emax (Zdigits2 (Z.pos m) + e) - e = 0)
    by (fexp_unfold; lia).
  rewrite Hf. shift_exact. rewrite Hf. shift_exact.
  unfold Float32.emax, Float32.prec.
  destruct (Z.leb_spec e (128 - 24)); [reflexivity | lia].
Qed.

(** Rounding an exact result with one bit too many, the last one zero. *)
Lemma round_even (s : bool) (m : positive) (e : Z) :
  Z.pos (digits2_pos m) = 24 -> -149 <= e - 1 -> e <= 104 ->
  binary_round_aux Float32.prec Float32.emax s (Z.pos m~0) (e - 1) loc_Exact
  = S754_finite s m e.
Proof.
  intros Hd He Hle. unfold binary_round_aux, shr_fexp.
  assert (Hf : fexp Float32.prec Float32.emax
                 (Zdigits2 (Z.pos m~0) + (e - 1)) - (e - 1) = 1)
    by (fexp_unfold; lia).
  rewrite Hf. shift_exact.
  assert (Hg : fexp Float32.prec Float32.emax
                 (Zdigits2 (Z.pos m) + (e - 1 + 1)) - (e - 1 + 1) = 0)
    by (fexp_unfold; lia).
  rewrite Hg. shift_exact.
  replace (e - 1 + 1) with e by lia. unfold Float32.emax, Float32.prec.
  destruct (Z.leb_spec e (128 - 24)); [reflexivity | lia].
Qed.

Lemma mul_two23 (m : positive) : (m * 8388608)%positive = Float32.shl23 m.
Proof. rewrite Pos.mul_comm. reflexivity. Qed.

Lemma shl23_mul (m : positive) : Z.pos (Float32.shl23 m) = Z.pos m * 8388608.
Proof. rewrite <- mul_two23. apply Pos2Z.inj_mul. Qed.

Lemma div_eucl_exact (a b : Z) : 0 < b -> Z.div_eucl (a * b) b = (a, 0).
Proof.
  intros Hb. pose proof (Z_div_mod (a * b) b ltac:(lia)) as Hdiv.
  destruct (Z.div_eucl (a * b) b) as [q r]. destruct Hdiv as [Heq Hr].
  assert (q = a) by nia. subst q. f_equal. lia.
Qed.

(** Doubling a normal value adds one to the exponent, or overflows. *)
Lemma double_normal (s : bool) (m : positive) (e : Z) :
  Z.pos (digits2_pos m) = 24 -> -149 <= e ->
  Float32.mul (S754_finite s m e) Float32.two =
    if e + 1 <=? 104 then S754_finite s m (e + 1) else S754_infinity s.
Proof.
  intros Hd He. unfold Float32.mul, Float32.two, SFmul.
  rewrite xorb_false_r, mul_two23. unfold Float32.shl23.
  unfold binary_round_aux, shr_fexp.
  match goal with |- context [shr _ _ ?n] =>
    assert (Hf : n = 23) by (fexp_unfold; lia); rewrite Hf end.
  shift_exact.
  match goal with |- context [shr _ _ ?n] =>
    assert (Hg : n = 0) by (fexp_unfold; lia); rewrite Hg end.
  shift_exact.
  replace (e + -22 + 23) with (e + 1) by lia. reflexivity.
Qed.

(** Doubling a subnormal value doubles the mantissa. *)
Lemma double_subnormal (s : bool) (m : positive) :
  Z.pos (digits2_pos m) < 24 ->
  Float32.mul (S754_finite s m (-149)) Float32.two = S754_finite s m~0 (-149).
Proof.
  intros Hd. unfold Float32.mul, Float32.two, SFmul.
  rewrite xorb_false_r, mul_two23. unfold Float32.shl23.
  unfold binary_round_aux, shr_fexp.
  match goal with |- context [shr _ _ ?n] =>
    assert (Hf : n = 22) by (fexp_unfold; lia); rewrite Hf end.
  shift_exact.
  match goal with |- context [shr _ _ ?n] =>
    assert (Hg : n = 0) by (fexp_unfold; lia); rewrite Hg end.
  shift_exact. reflexivity.
Qed.

(** Halving a normal value above the least exponent subtracts one from
    the exponent. *)
Lemma halve_normal (s : bool) (m : positive) (e : Z) :
  Z.pos (digits2_pos m) = 24 -> -149 < e -> e <= 104 ->
  Float32.div (S754_finite s m e) Float32.two = S754_finite s m (e - 1).
Proof.
  intros Hd He Hle. unfold Float32.div, Float32.two, SFdiv, SFdiv_core_binary.
  rewrite xorb_false_r.
  destruct (Z.eq_dec e (-148)) as [-> | Hne].
  - match goal with |- context [Z.min ?a ?b] =>
      assert (Hm : Z.min a b = -149) by (fexp_unfold; lia); rewrite Hm end.
    change (-148 - -22 - -149) with 23.
    change (Z.shiftl (Z.pos m) 23) with (Z.pos (Float32.shl23 m)).
    rewrite shl23_mul, div_eucl_exact by lia.
    change (new_location 8388608 0) with loc_Exact.
    apply round_canonical, bounded_intro; lia.
  - match goal with |- context [Z.min ?a ?b] =>
      assert (Hm : Z.min a b = e - 2) by (fexp_unfold; lia); rewrite Hm end.
    replace (e - -22 - (e - 2)) with 24 by lia.
    change (Z.shiftl (Z.pos m) 24) with (Z.pos (Float32.shl23 m~0)).
    rewrite shl23_mul, div_eucl_exact by lia.
    change (new_location 8388608 0) with loc_Exact.
    replace (e - 2) with (e - 1 - 1) by lia.
    apply round_even; lia.
Qed.

(** Halving an even mantissa at the least exponent halves the mantissa. *)
Lemma halve_even_least (s : bool) (m : positive) :
  Z.pos (digits2_pos m) < 24 ->
  Float32.div (S754_finite s m~0 (-149)) Float32.two = S754_finite s m (-149).
Proof.
  intros Hd. unfold Float32.div, Float32.two, SFdiv, SFdiv_core_binary.
  rewrite xorb_false_r.
  match goal with |- context [Z.min ?a ?b] =>
    assert (Hm : Z.min a b = -149) by (fexp_unfold; lia); rewrite Hm end.
  change (-149 - -22 - -149) with 22.
  change (Z.shiftl (Z.pos m~0) 22) with (Z.pos (Float32.shl23 m)).
  rewrite shl23_mul, div_eucl_exact by lia.
  change (new_location 8388608 0) with loc_Exact.
  apply round_canonical, bounded_intro; lia.
Qed.

End Doubling.

Lemma double_valid (z : float) :
  Float32.valid z = true -> Float32.valid (Float32.mul z Float32.two) = true.
Proof.
  destruct z as [s | s | | s m e]; try reflexivity.
  intros Hb. destruct (bounded_cases _ _ Hb) as [Hle [[Hd He] | [Hd ->]]].
  - rewrite double_normal by assumption.
    destruct (Z.leb_spec (e + 1) 104); [|reflexivity].
    apply bounded_intro; lia.
  - rewrite double_subnormal by assumption.
    apply bounded_intro; [lia|]. cbn [digits2_pos]. rewrite Pos2Z.inj_succ. lia.
Qed.

(** Halving undoes a doubling that did not overflow. *)
Lemma halve_double (z : float) :
  Float32.valid z = true ->
  Float32.is_finite (Float32.mul z Float32.two) = true ->
  Float32.div (Float32.mul z Float32.two) Float32.two = z.
Proof.
  destruct z as [s | s | | s m e]; try discriminate.
  - intros _ _. destruct s; reflexivity.
  - intros Hb. destruct (bounded_cases _ _ Hb) as [Hle [[Hd He] | [Hd ->]]].
    + rewrite double_normal by assumption.
      destruct (Z.leb_spec (e + 1) 104); [|discriminate].
      intros _. rewrite halve_normal by lia. f_equal. lia.
    + rewrite double_subnormal by assumption.
      intros _. apply halve_even_least. assumption.
Qed.

Lemma double_not_finite (z : float) :
  Float32.is_finite z = false ->
  Float32.is_finite (Float32.mul z Float32.two) = false.
Proof. destruct z as [s | s | | s m e]; try discriminate; reflexivity. Qed.

Lemma iter_double_valid (n : nat) (z : float) :
  Float32.valid z = true -> Float32.valid (Nat.iter n Float32.double z) = true.
Proof.
  intros Hv. induction n as [| n IHn]; [assumption|].
  cbn [Nat.iter nat_rect]. apply double_valid. assumption.
Qed.

Lemma halve_iter_double (n : nat) (z : float) :
  Float32.valid z = true ->
  Float32.is_finite (Nat.iter n Float32.double z) = true ->
  Nat.iter n Float32.halve (Nat.iter n Float32.double z) = z.
Proof.
  induction n as [| n IH]; intros Hv Hfin; [reflexivity|].
  rewrite Nat.iter_succ_r.
  change (Nat.iter (S n) Float32.double z)
    with (Float32.double (Nat.iter n Float32.double z)) in *.
  assert (Hpre : Float32.is_finite (Nat.iter n Float32.double z) = true).
  { destruct (Float32.is_finite (Nat.iter n Float32.double z)) eqn:E; [reflexivity|].
    pose proof (double_not_finite _ E
      : Float32.is_finite (Float32.double (Nat.iter n Float32.double z)) = false).
    congruence. }
  rewrite (halve_double _ (iter_double_valid n z Hv) Hfin
    : Float32.halve (Float32.double (Nat.iter n Float32.double z))
      = Nat.iter n Float32.double z).
  auto.
Qed.

Lemma Env_eta (e : Env Canvas.t) :
  upd_this (Canvas.set_m_zoom (Canvas.m_zoom (this e))) e = e.
Proof. destruct e as [[] ?]. reflexivity. Qed.

Lemma times_zoom_in (n : nat) (e : Env Canvas.t) :
  times n Canvas.zoom_in e
  = Ret tt (upd_this (Canvas.set_m_zoom
                        (Nat.iter n Float32.double (Canvas.m_zoom (this e)))) e).
Proof.
  revert e. induction n as [| n IH]; intros e.
  - cbn. rewrite Env_eta. reflexivity.
  - cbn [times]. unfold mbind, M_bind. unfold Canvas.zoom_in at 1. unfold modify.
    rewrite IH, Nat.iter_succ_r. reflexivity.
Qed.

Lemma times_zoom_out (n : nat) (e : Env Canvas.t) :
  times n Canvas.zoom_out e
  = Ret tt (upd_this (Canvas.set_m_zoom
                        (Nat.iter n Float32.halve (Canvas.m_zoom (this e)))) e).
Proof.
  revert e. induction n as [| n IH]; intros e.
  - cbn. rewrite Env_eta. reflexivity.
  - cbn [times]. unfold mbind, M_bind. unfold Canvas.zoom_out at 1. unfold modify.
    rewrite IH, Nat.iter_succ_r. reflexivity.
Qed.

(** C6, amended.  Starting from any binary32 zoom factor, if the factor
    is still finite after [n] calls of [zoom_in], then [n] calls of
    [zoom_out] bring the canvas back exactly to where it was. *)
Theorem zoom_round_trip_exact (n : nat) (e : Env Canvas.t) (z : float) :
  Float32.valid (Canvas.m_zoom (this e)) = true ->
  zoomed_in n e = Some z ->
  Float32.is_finite z = true ->
  (times n Canvas.zoom_in;; times n Canvas.zoom_out) e = Ret tt e
  /\ zoom_round_trip n e = Some (Canvas.m_zoom (this e)).
Proof.
  intros Hv Hz Hfin. unfold zoomed_in in Hz. rewrite times_zoom_in in Hz.
  cbn in Hz. injection Hz as <-.
  assert (Hrt : (times n Canvas.zoom_in;; times n Canvas.zoom_out) e = Ret tt e).
  { unfold mbind, M_bind. rewrite times_zoom_in, times_zoom_out.
    destruct e as [[image texture programs program zoom] w]. cbn in *.
    rewrite halve_iter_double by assumption. reflexivity. }
  split; [exact Hrt|]. unfold zoom_round_trip. rewrite Hrt. reflexivity.
Qed.

Lemma zoom_round_trip_exact_witness :
  zoomed_in 127 env1 = Some (S754_finite false 8388608 104)
  /\ zoom_round_trip 127 env1 = Some Float32.one.
Proof.
  split; [vm_compute; reflexivity|].
  apply (zoom_round_trip_exact 127 env1 (S754_finite false 8388608 104));
    vm_compute; reflexivity.
Defined.

(** C6 as stated fails when the doublings overflow: 128 calls of
    [zoom_in] from the initial factor 1.0f reach +infinity, and no number
    of [zoom_out] calls leaves it. *)
Lemma zoom_round_trip_overflow :
  zoom_round_trip 128 env1 = Some (S754_infinity false)
  /\ zoom_round_trip 128 env1 <> Some (Canvas.m_zoom (this env1)).
Proof. split; [vm_compute; reflexivity | vm_compute; discriminate]. Qed.

(** ** The render-callback data relay *)

(** What the canvas callback does, whatever world it runs in: it binds
    the program and sets the two uniforms from the identifiers in
    [callback_data] and the viewport size, issues no draw, and leaves
    memory, frame and statics alone. *)
Lemma draw_with_custom_shader_effect (w : World) :
  let ids := callback_data (statics w) in
  let size := DisplaySize (input (frame w)) in
  exists w', Canvas.draw_with_custom_shader w = Ret tt w'
    /\ gl_program_in_use (gl w') = Some ids.1
    /\ gl_uniforms (gl w') !! (ids.1, "transformation"%string)
       = Some (UniformMat4
                 (mat4_mul (mat4_mul (glm_ortho Float32.zero size.1 size.2 Float32.zero)
                                     mat4_identity) mat4_identity))
    /\ gl_uniforms (gl w') !! (ids.1, "texture2d"%string)
       = Some (UniformTexture (Texture2D.of_id ids.2))
    /\ gl_drawn (gl w') = gl_drawn (gl w)
    /\ mem w' = mem w /\ frame w' = frame w /\ statics w' = statics w.
Proof.
  canvas_unfold. monad_unfold. cbn -[insert lookup].
  eexists. split; [reflexivity|]. cbn -[insert lookup].
  split; [reflexivity|].
  split; [rewrite lookup_insert_ne by (intros [= ?]; discriminate);
          apply lookup_insert_eq|].
  split; [apply lookup_insert_eq|]. auto.
Qed.

(** C4, amended.  [use_shader] stores the identifiers of the selected
    program and of the texture in the static [callback_data] and appends
    the callback to the draw list.  Whenever the callback later runs
    with the slot still holding them, it reads the slot and the viewport
    size only, makes that program current and gives it the orthographic
    transform of the viewport and the texture; it issues no draw. *)
Theorem use_shader_relays_ids (e : Env Canvas.t) (p : Program) :
  Canvas.m_programs (this e) !! Canvas.m_program (this e) = Some p ->
  let ids := (prog_id p, tex_id (Canvas.m_texture (this e))) in
  exists w1,
    Canvas.use_shader e = Ret tt {| this := this e; world := w1 |}
    /\ callback_data (statics w1) = ids
    /\ draw_list (frame w1)
       = draw_list (frame (world e)) ++ [CmdCallback Canvas_draw_with_custom_shader None]
    /\ forall w, callback_data (statics w) = ids ->
       let size := DisplaySize (input (frame w)) in
       exists w', Canvas.draw_with_custom_shader w = Ret tt w'
         /\ gl_program_in_use (gl w') = Some (prog_id p)
         /\ gl_uniforms (gl w') !! (prog_id p, "transformation"%string)
            = Some (UniformMat4
                      (mat4_mul (mat4_mul (glm_ortho Float32.zero size.1 size.2 Float32.zero)
                                          mat4_identity) mat4_identity))
         /\ gl_uniforms (gl w') !! (prog_id p, "texture2d"%string)
            = Some (UniformTexture (Texture2D.of_id (tex_id (Canvas.m_texture (this e)))))
         /\ gl_drawn (gl w') = gl_drawn (gl w).
Proof.
  intros Hp ids. eexists. split; [|split; [|split]].
  - canvas_unfold. monad_unfold. cbn. rewrite Hp. cbn. reflexivity.
  - reflexivity.
  - reflexivity.
  - intros w Hw size.
    destruct (draw_with_custom_shader_effect w)
      as (w' & Hrun & Huse & Htr & Htex & Hdrawn & _).
    rewrite Hw in Huse, Htr, Htex. exists w'. auto.
Qed.

Lemma use_shader_relays_ids_witness :
  Canvas.m_programs (this env1) !! Canvas.m_program (this env1)
    = Some {| prog_id := 2%N; prog_failed := false |}
  /\ exists w1,
       Canvas.use_shader env1 = Ret tt {| this := canvas1; world := w1 |}
       /\ callback_data (statics w1) = (2%N, 1%N).
Proof.
  split; [reflexivity|].
  destruct (use_shader_relays_ids env1 {| prog_id := 2%N; prog_failed := false |}
              eq_refl) as (w1 & Hrun & Hslot & _).
  exists w1. split; assumption.
Defined.

(** C4 as stated fails on "issues the draw": after [use_shader] on the
    first canvas, the callback makes program 2 current and issues no
    draw. *)
Lemma callback_issues_no_draw :
  exists w1 w',
    Canvas.use_shader env1 = Ret tt {| this := canvas1; world := w1 |}
    /\ Canvas.draw_with_custom_shader w1 = Ret tt w'
    /\ gl_program_in_use (gl w') = Some 2%N
    /\ gl_drawn (gl w') = [].
Proof.
  eexists _, _. split; [vm_compute; reflexivity|].
  split; [vm_compute; reflexivity|]. split; reflexivity.
Qed.

(** The draw itself is issued by the backend, for the image command that
    follows the callback in the draw list: replaying the frame that one
    [render] built draws the canvas texture once, with the selected
    program, and ends in ImGui's own render state. *)
Lemma frame_drawn_with_selected_program (e : Env Canvas.t) (p : Program) :
  Canvas.m_programs (this e) !! Canvas.m_program (this e) = Some p ->
  draw_list (frame (world e)) = [] ->
  exists e' w',
    Canvas.render e = Ret tt e'
    /\ ImGui_ImplOpenGL3.RenderDrawData Dialog.user_callback (world e') = Ret tt w'
    /\ gl_drawn (gl w')
       = gl_drawn (gl (world e))
         ++ [(Some (prog_id p), tex_id (Canvas.m_texture (this e)))]
    /\ gl_program_in_use (gl w') = None.
Proof.
  intros Hp Hdl. canvas_unfold.
  unfold ImGui_ImplOpenGL3.RenderDrawData, ImGui_ImplOpenGL3.exec, Dialog.user_callback.
  canvas_unfold. monad_unfold. cbn. rewrite Hp. cbn.
  repeat (case_match; simplify_eq/=);
    (eexists _, _; split; [reflexivity|]); cbn; rewrite Hdl; cbn; auto.
Qed.

(** C5.  [callback_data] is one slot for the whole process.  When a
    second canvas calls [use_shader] before the first canvas's callback
    has run, the slot holds the second payload only; two callbacks are
    pending, and the backend, running the first of them, binds the
    program and the texture of the second canvas. *)
Theorem second_use_shader_overwrites (c1 c2 : Canvas.t) (w : World) (p1 p2 : Program) :
  Canvas.m_programs c1 !! Canvas.m_program c1 = Some p1 ->
  Canvas.m_programs c2 !! Canvas.m_program c2 = Some p2 ->
  let pending := CmdCallback Canvas_draw_with_custom_shader None in
  exists w1 w2 w3,
    Canvas.use_shader {| this := c1; world := w |} = Ret tt {| this := c1; world := w1 |}
    /\ callback_data (statics w1) = (prog_id p1, tex_id (Canvas.m_texture c1))
    /\ Canvas.use_shader {| this := c2; world := w1 |} = Ret tt {| this := c2; world := w2 |}
    /\ callback_data (statics w2) = (prog_id p2, tex_id (Canvas.m_texture c2))
    /\ draw_list (frame w2) = draw_list (frame w) ++ [pending; pending]
    /\ ImGui_ImplOpenGL3.exec Dialog.user_callback pending w2 = Ret tt w3
    /\ gl_program_in_use (gl w3) = Some (prog_id p2)
    /\ gl_uniforms (gl w3) !! (prog_id p2, "texture2d"%string)
       = Some (UniformTexture (Texture2D.of_id (tex_id (Canvas.m_texture c2))))
    /\ callback_data (statics w3) = callback_data (statics w2).
Proof.
  intros Hp1 Hp2 pending.
  unfold ImGui_ImplOpenGL3.exec, Dialog.user_callback. subst pending.
  canvas_unfold. monad_unfold. cbn -[insert lookup].
  rewrite Hp1. cbn -[insert lookup]. rewrite Hp2. cbn -[insert lookup].
  eexists _, _, _. repeat (split; [reflexivity|]). cbn -[insert lookup].
  split; [rewrite <- app_assoc; reflexivity|].
  split; [reflexivity|]. split; [reflexivity|].
  split; [apply lookup_insert_eq | reflexivity].
Qed.

Lemma second_use_shader_overwrites_witness :
  Canvas.m_programs canvas1 !! Canvas.m_program canvas1
    = Some {| prog_id := 2%N; prog_failed := false |}
  /\ Canvas.m_programs canvas2 !! Canvas.m_program canvas2
    = Some {| prog_id := 3%N; prog_failed := false |}
  /\ exists w1 w2,
       Canvas.use_shader {| this := canvas1; world := world1 |}
         = Ret tt {| this := canvas1; world := w1 |}
       /\ callback_data (statics w1) = (2%N, 1%N)
       /\ Canvas.use_shader {| this := canvas2; world := w1 |}
         = Ret tt {| this := canvas2; world := w2 |}
       /\ callback_data (statics w2) = (3%N, 9%N).
Proof.
  split; [reflexivity|]. split; [reflexivity|].
  destruct (second_use_shader_overwrites canvas1 canvas2 world1
              {| prog_id := 2%N; prog_failed := false |}
              {| prog_id := 3%N; prog_failed := false |} eq_refl eq_refl)
    as (w1 & w2 & w3 & H1 & Hs1 & H2 & Hs2 & _).
  exists w1, w2. auto.
Defined.

(** Two canvases rendered in one frame: when the frame is replayed, the
    texture of the first canvas is drawn with the program of the second
    (3, "grayscale") and not with its own (2, "color"). *)
Example two_canvases_in_one_frame :
  exists e1 e2 w',
    Canvas.render env1 = Ret tt e1
    /\ Canvas.render {| this := canvas2; world := world e1 |} = Ret tt e2
    /\ ImGui_ImplOpenGL3.RenderDrawData Dialog.user_callback (world e2) = Ret tt w'
    /\ gl_drawn (gl w') = [(Some 3%N, 1%N); (Some 3%N, 9%N)].
Proof.
  eexists _, _, _. split; [vm_compute; reflexivity|].
  split; [vm_compute; reflexivity|]. split; [vm_compute; reflexivity|].
  reflexivity.
Qed.

(** ** Reasoning along a member function *)

Lemma wp_returns {S A} (m : M S A) (Q : A -> S -> Prop) (s : S) :
  wp m Q s -> exists a s', m s = Ret a s' /\ Q a s'.
Proof. unfold wp. destruct (m s); [eauto | tauto | tauto]. Qed.

Lemma wp_run {S A} (m : M S A) (Q : A -> S -> Prop) (s s' : S) (a : A) :
  m s = Ret a s' -> Q a s' -> wp m Q s.
Proof. unfold wp. intros ->. exact (fun H => H). Qed.

Lemma wp_ret {S A} (a : A) (Q : A -> S -> Prop) (s : S) :
  Q a s -> wp (mret a) Q s.
Proof. exact (fun H => H). Qed.

Lemma wp_bind {S A B} (m : M S A) (f : A -> M S B) (Q : B -> S -> Prop) (s : S) :
  wp m (fun a s' => wp (f a) Q s') s -> wp (m ≫= f) Q s.
Proof. unfold wp, mbind, M_bind. destruct (m s); tauto. Qed.

Lemma wp_gets {S A} (f : S -> A) (Q : A -> S -> Prop) (s : S) :
  Q (f s) s -> wp (gets f) Q s.
Proof. exact (fun H => H). Qed.

Lemma wp_modify {S} (f : S -> S) (Q : unit -> S -> Prop) (s : S) :
  Q tt (f s) -> wp (modify f) Q s.
Proof. exact (fun H => H). Qed.

Lemma wp_when {S} (b : bool) (m : M S unit) (Q : unit -> S -> Prop) (s : S) :
  (b = true -> wp m Q s) -> (b = false -> Q tt s) -> wp (when b m) Q s.
Proof. intros Ht Hf. destruct b; [apply Ht | apply Hf]; reflexivity. Qed.

Lemma wp_liftW {O A} (m : M World A) (Q : A -> Env O -> Prop) (e : Env O) :
  wp m (fun a w => Q a {| this := this e; world := w |}) (world e) ->
  wp (liftW m) Q e.
Proof. unfold wp, liftW. destruct (m (world e)); tauto. Qed.

(** A button that sets a flag of the toolbar, as one update of the flag. *)
Lemma wp_button (get : ToolbarStatics -> bool)
    (set : bool -> ToolbarStatics -> ToolbarStatics)
    (b : bool) (Q : unit -> World -> Prop) (w : World) :
  (forall t, set (get t) t = t) ->
  Q tt (upd_toolbar (fun t => set (b || get t) t) w) ->
  wp (when b (modify (upd_toolbar (set true)))) Q w.
Proof.
  intros Hlaw. destruct b; cbn; [exact (fun H => H)|].
  replace (upd_toolbar (fun t => set (get t) t) w) with w; [exact (fun H => H)|].
  destruct w as [m g f [cd tb mc ml clk hov sm st sc loc wsc fdo]].
  unfold upd_toolbar, upd_statics. cbn. rewrite Hlaw. reflexivity.
Qed.

(** A button that sets a flag of the toolbar and a flag of the menu. *)
Lemma wp_button_menu (get : ToolbarStatics -> bool)
    (set : bool -> ToolbarStatics -> ToolbarStatics)
    (getm : Statics -> bool) (setm : bool -> Statics -> Statics)
    (b : bool) (Q : unit -> World -> Prop) (w : World) :
  (forall t, set (get t) t = t) ->
  (forall st, setm (getm st) st = st) ->
  Q tt (upd_statics (fun st => setm (b || getm st) st)
          (upd_toolbar (fun t => set (b || get t) t) w)) ->
  wp (when b (modify (upd_toolbar (set true));; modify (upd_statics (setm true)))) Q w.
Proof.
  intros Hlaw Hlawm. destruct b; cbn; [exact (fun H => H)|].
  replace (upd_statics (fun st => setm (getm st) st)
             (upd_toolbar (fun t => set (get t) t) w)) with w; [exact (fun H => H)|].
  destruct w as [m g f [cd tb mc ml clk hov sm st sc loc wsc fdo]].
  unfold upd_toolbar, upd_statics. cbn. rewrite Hlaw, Hlawm. reflexivity.
Qed.

#[global] Opaque wp.

Ltac wp_step :=
  lazymatch goal with
  | |- wp (mbind _ _) _ _ => apply wp_bind
  | |- wp (gets _) _ _ => apply wp_gets
  | |- wp (modify _) _ _ => apply wp_modify
  | |- wp (liftW _) _ _ => apply wp_liftW
  | |- wp (mret _) _ _ => apply wp_ret
  | |- wp (when true _) _ _ => apply wp_when; [intros _ | intros [=]]
  | |- wp (when false _) _ _ => apply wp_when; [intros [=] | intros _]
  | |- wp (when ?b _) _ _ => destruct b eqn:?
  | |- wp (Image.alloc _) _ _ => eapply wp_run; [reflexivity|]
  | |- wp (Texture2D.set_image _ _) _ _ => eapply wp_run; [reflexivity|]
  | |- wp (match ?x with _ => _ end) _ _ => destruct x eqn:?
  end; cbn.

Ltac law := intros []; reflexivity.

Ltac wp_toolbar_step :=
  lazymatch goal with
  | |- wp (when _ (modify (upd_toolbar (set_Toolbar_open_image true)))) _ _ =>
      apply (wp_button Toolbar_open_image set_Toolbar_open_image); [law|]
  | |- wp (when _ (modify (upd_toolbar (set_Toolbar_save_image true)))) _ _ =>
      apply (wp_button Toolbar_save_image set_Toolbar_save_image); [law|]
  | |- wp (when _ (modify (upd_toolbar (set_Toolbar_quit_app true)))) _ _ =>
      apply (wp_button Toolbar_quit_app set_Toolbar_quit_app); [law|]
  | |- wp (when _ (modify (upd_toolbar (set_Toolbar_zoom_in true)))) _ _ =>
      apply (wp_button Toolbar_zoom_in set_Toolbar_zoom_in); [law|]
  | |- wp (when _ (modify (upd_toolbar (set_Toolbar_zoom_out true)))) _ _ =>
      apply (wp_button Toolbar_zoom_out set_Toolbar_zoom_out); [law|]
  | |- wp (when _ (mbind _ (modify (upd_toolbar (set_Toolbar_draw_circle true))))) _ _ =>
      apply (wp_button_menu Toolbar_draw_circle set_Toolbar_draw_circle
               Menu_draw_circle set_Menu_draw_circle); [law|law|]
  | |- wp (when _ (mbind _ (modify (upd_toolbar (set_Toolbar_draw_line true))))) _ _ =>
      apply (wp_button_menu Toolbar_draw_line set_Toolbar_draw_line
               Menu_draw_line set_Menu_draw_line); [law|law|]
  | _ => wp_step
  end; cbn.

(** ** Command flags *)

(** In [Dialog::render_menu] the open-image and to-gray flags are reset
    when consumed, before the menu items toggle them; the quit flag is
    not. *)
Lemma render_menu_flags `{PixelOps} (e : Env Dialog.t) :
  exists e', Dialog.render_menu e = Ret tt e'
    /\ let l := render_menu_locals (statics (world e)) in
       let l' := render_menu_locals (statics (world e')) in
       let clicked item :=
         bool_decide (item ∈ MenuItemsClicked (input (frame (world e)))) in
       open_image l' = clicked Item_Open
       /\ to_gray l' = clicked Item_To_gray
       /\ quit_app l' = xorb (quit_app l) (clicked Item_Quit)
       /\ window_should_close (statics (world e'))
          = quit_app l || window_should_close (statics (world e)).
Proof.
  enough (Hwp : wp Dialog.render_menu (fun _ e' =>
       let l := render_menu_locals (statics (world e)) in
       let l' := render_menu_locals (statics (world e')) in
       let clicked item :=
         bool_decide (item ∈ MenuItemsClicked (input (frame (world e)))) in
       open_image l' = clicked Item_Open
       /\ to_gray l' = clicked Item_To_gray
       /\ quit_app l' = xorb (quit_app l) (clicked Item_Quit)
       /\ window_should_close (statics (world e'))
          = quit_app l || window_should_close (statics (world e))) e).
  { apply wp_returns in Hwp as ([] & e' & Hrun & Hq). eauto. }
  destruct e as [[[data iw ih ic] tex prog]
                 [[hp hn ev fs] g [inp dl tps]
                  [cd tb mc ml clk hov sm st sc [oi qa tg] wsc fdo]]].
  unfold Dialog.render_menu, Dialog.MenuItem, ImageUtils.to_gray,
    ImageUtils.to_grayscale, Image.Image, Image.free, Image.of_bitmap.
  cbn.
  destruct oi, qa, tg, fdo; repeat wp_step;
    repeat split; try (destruct (bool_decide _); reflexivity).
Qed.

(** [Toolbar::render] sets the flag of a clicked button and clears none. *)
Lemma Toolbar_render_flags (w : World) :
  exists w', Toolbar.render w = Ret tt w'
    /\ let t := toolbar (statics w) in
       let t' := toolbar (statics w') in
       let clicked b := bool_decide (b ∈ ButtonsClicked (input (frame w))) in
       Toolbar_open_image t' = clicked ICON_FA_FOLDER_OPEN || Toolbar_open_image t
       /\ Toolbar_save_image t' = clicked ICON_FA_SAVE || Toolbar_save_image t
       /\ Toolbar_quit_app t' = clicked ICON_FA_WINDOW_CLOSE || Toolbar_quit_app t
       /\ Toolbar_zoom_in t' = clicked ICON_FA_PLUS_CIRCLE || Toolbar_zoom_in t
       /\ Toolbar_zoom_out t' = clicked ICON_FA_MINUS_CIRCLE || Toolbar_zoom_out t
       /\ Toolbar_draw_circle t' = clicked ICON_FA_CIRCLE || Toolbar_draw_circle t
       /\ Toolbar_draw_line t' = clicked ICON_FA_PEN || Toolbar_draw_line t.
Proof.
  enough (Hwp : wp Toolbar.render (fun _ w' =>
       let t := toolbar (statics w) in
       let t' := toolbar (statics w') in
       let clicked b := bool_decide (b ∈ ButtonsClicked (input (frame w))) in
       Toolbar_open_image t' = clicked ICON_FA_FOLDER_OPEN || Toolbar_open_image t
       /\ Toolbar_save_image t' = clicked ICON_FA_SAVE || Toolbar_save_image t
       /\ Toolbar_quit_app t' = clicked ICON_FA_WINDOW_CLOSE || Toolbar_quit_app t
       /\ Toolbar_zoom_in t' = clicked ICON_FA_PLUS_CIRCLE || Toolbar_zoom_in t
       /\ Toolbar_zoom_out t' = clicked ICON_FA_MINUS_CIRCLE || Toolbar_zoom_out t
       /\ Toolbar_draw_circle t' = clicked ICON_FA_CIRCLE || Toolbar_draw_circle t
       /\ Toolbar_draw_line t' = clicked ICON_FA_PEN || Toolbar_draw_line t) w).
  { apply wp_returns in Hwp as ([] & w' & Hrun & Hq). eauto. }
  destruct w as [m g [inp dl tps]
                 [cd [oi si qa zi zo dc dl' hm] mc ml clk hov sm st sc loc wsc fdo]].
  unfold Toolbar.render, Toolbar.Button. cbn.
  repeat wp_toolbar_step; repeat split; try reflexivity;
    try (destruct dc; destruct (bool_decide _); reflexivity);
    try (destruct dl'; destruct (bool_decide _); reflexivity).
Qed.

(** [Canvas::draw_circle] resets the click mode and leaves the
    draw-circle flags alone. *)
Lemma draw_circle_flags `{PixelOps} (e : Env Canvas.t) :
  exists e', Canvas.draw_circle e = Ret tt e'
    /\ Mouse_click_mode (statics (world e')) = ClickMode_NONE
    /\ toolbar (statics (world e')) = toolbar (statics (world e))
    /\ Menu_draw_circle (statics (world e')) = Menu_draw_circle (statics (world e)).
Proof.
  canvas_unfold. monad_unfold. cbn.
  destruct (img_data (Canvas.m_image (this e))); cbn;
    rewrite lookup_insert_eq; cbn;
    (eexists; split; [reflexivity|]); cbn; auto.
Qed.

(** C8, amended.  In [Dialog::render_menu] the open-image and to-gray
    flags are cleared when they are consumed, so that after the call
    they hold exactly whether their menu item was clicked in this frame;
    the quit flag is consumed without being cleared and changes only
    when its menu item toggles it.  [Toolbar::render] sets a command flag
    when its button is clicked and never clears one.
    [Canvas::draw_circle] resets the click mode and leaves the
    draw-circle flags of the toolbar and the menu as they are. *)
Theorem command_flags_lifecycle `{PixelOps} :
  (forall e : Env Dialog.t,
     exists e', Dialog.render_menu e = Ret tt e'
       /\ let l := render_menu_locals (statics (world e)) in
          let l' := render_menu_locals (statics (world e')) in
          let clicked item :=
            bool_decide (item ∈ MenuItemsClicked (input (frame (world e)))) in
          open_image l' = clicked Item_Open
          /\ to_gray l' = clicked Item_To_gray
          /\ quit_app l' = xorb (quit_app l) (clicked Item_Quit)
          /\ window_should_close (statics (world e'))
             = quit_app l || window_should_close (statics (world e)))
  /\ (forall w : World,
     exists w', Toolbar.render w = Ret tt w'
       /\ let t := toolbar (statics w) in
          let t' := toolbar (statics w') in
          let clicked b := bool_decide (b ∈ ButtonsClicked (input (frame w))) in
          Toolbar_open_image t' = clicked ICON_FA_FOLDER_OPEN || Toolbar_open_image t
          /\ Toolbar_save_image t' = clicked ICON_FA_SAVE || Toolbar_save_image t
          /\ Toolbar_quit_app t' = clicked ICON_FA_WINDOW_CLOSE || Toolbar_quit_app t
          /\ Toolbar_zoom_in t' = clicked ICON_FA_PLUS_CIRCLE || Toolbar_zoom_in t
          /\ Toolbar_zoom_out t' = clicked ICON_FA_MINUS_CIRCLE || Toolbar_zoom_out t
          /\ Toolbar_draw_circle t' = clicked ICON_FA_CIRCLE || Toolbar_draw_circle t
          /\ Toolbar_draw_line t' = clicked ICON_FA_PEN || Toolbar_draw_line t)
  /\ (forall e : Env Canvas.t,
     exists e', Canvas.draw_circle e = Ret tt e'
       /\ Mouse_click_mode (statics (world e')) = ClickMode_NONE
       /\ toolbar (statics (world e')) = toolbar (statics (world e))
       /\ Menu_draw_circle (statics (world e')) = Menu_draw_circle (statics (world e))).
Proof.
  split; [exact render_menu_flags|].
  split; [exact Toolbar_render_flags | exact draw_circle_flags].
Qed.

(** C8 as stated fails for the quit flag.  The user clicks "Quit" in one
    frame, which sets the flag; the next call of [render_menu] consumes
    it, closing the window, and leaves it set. *)
Lemma quit_flag_not_cleared :
  exists d w e1 e2,
    @Dialog.Dialog plain_pixels (world0 ∅) = Ret d w
    /\ @Dialog.render_menu plain_pixels
         {| this := d; world := upd_frame (set_input (menu_click_input [Item_Quit])) w |}
       = Ret tt e1
    /\ quit_app (render_menu_locals (statics (world e1))) = true
    /\ window_should_close (statics (world e1)) = false
    /\ @Dialog.render_menu plain_pixels (upd_world (upd_frame (set_input idle_input)) e1)
       = Ret tt e2
    /\ window_should_close (statics (world e2)) = true
    /\ quit_app (render_menu_locals (statics (world e2))) = true.
Proof.
  eexists _, _, _, _. split; [vm_compute; reflexivity|].
  split; [vm_compute; reflexivity|]. split; [reflexivity|]. split; [reflexivity|].
  split; [vm_compute; reflexivity|]. split; reflexivity.
Qed.

(** ** The operations on the fresh canvas *)

Example set_shader_grayscale :
  Canvas.set_shader "grayscale" env1
  = Ret tt (upd_this (Canvas.set_m_program "grayscale") env1).
Proof. reflexivity. Qed.

Example zoom_in_twice : zoomed_in 2 env1 = Some (Float32.of_Z 4).
Proof. vm_compute. reflexivity. Qed.

Example zoom_out_below_least :
  (fun e => Canvas.m_zoom (this e)) <$> final_state (times 150 Canvas.zoom_out env1)
  = Some (S754_zero false).
Proof. vm_compute. reflexivity. Qed.

Example one_canvas_frame :
  exists e' w',
    Canvas.render env1 = Ret tt e'
    /\ draw_list (frame (world e'))
       = [CmdCallback Canvas_draw_with_custom_shader None;
          CmdImage 1%N (Float32.of_Z 2, Float32.of_Z 1);
          CmdCallback ImDrawCallback_ResetRenderState None]
    /\ ImGui_ImplOpenGL3.RenderDrawData Dialog.user_callback (world e') = Ret tt w'
    /\ gl_drawn (gl w') = [(Some 2%N, 1%N)].
Proof.
  eexists _, _. split; [vm_compute; reflexivity|].
  split; [vm_compute; reflexivity|]. split; [vm_compute; reflexivity|]. reflexivity.
Qed.

Example Dialog_with_broken_fragment_stage :
  raises (@Dialog.Dialog plain_pixels (world0 {["assets/shaders/basic.frag"%string]}))
  = Some ShaderException.
Proof. vm_compute. reflexivity. Qed.

Example change_image_on_fresh_canvas :
  (fun e => mem_events (mem (world e))) <$>
    final_state (@Canvas.change_image plain_pixels "./assets/images/grass_logo.png" env1)
  = Some [Alloc 1%N; Free 1%N; Alloc 2%N].
Proof. vm_compute. reflexivity. Qed.

(** * Further properties *)

Lemma Canvas_establishes_ok `{PixelOps} (w0 w : World) (c : Canvas.t) :
  Canvas.Canvas w0 = Ret c w -> canvas_ok {| this := c; world := w |}.
Proof.
  unfold Canvas.Canvas, Image.Image, Image.of_bitmap, Image.alloc,
    Texture2D.Texture2D, Texture2D.upload, Program.Program, Program.has_failed,
    Canvas.programs_at, Image.read.
  monad_unfold.
  destruct (files (mem w0) !! _); cbn -[insert lookup dom];
    repeat (rewrite lookup_insert_eq; cbn -[insert lookup dom]);
    (destruct (_ || _); cbn -[insert lookup dom]; [discriminate|]);
    intros [= <- <-]; unfold canvas_ok; cbn -[insert lookup dom].
  all: split; [rewrite !dom_insert_L, dom_empty_L; unfold shader_keys; set_solver|].
  all: split; [unfold shader_keys; set_solver|].
  all: rewrite ?lookup_insert_eq; cbn.
  all: repeat split; eauto.
  right. eexists. split; [reflexivity|]. rewrite lookup_insert_eq. eauto.
Qed.

Lemma monochrome_key : "monochrome"%string ∈ shader_keys.
Proof. unfold shader_keys. set_solver. Qed.

Ltac ok_finish :=
  repeat split; eauto using monochrome_key;
  try (right; eexists; split; [reflexivity|]; rewrite lookup_insert_eq; eauto).

Lemma call_preserves_ok `{PixelOps} (op : CanvasOp) (e : Env Canvas.t) :
  canvas_ok e ->
  exists e', final_state (call op e) = Some e' /\ canvas_ok e'.
Proof.
  intros (Hdom & Hptr & Hsync & Hw & Hh & Hlive). unfold canvas_ok.
  assert (Hp : is_Some (Canvas.m_programs (this e) !! Canvas.m_program (this e)))
    by (apply elem_of_dom; rewrite Hdom; exact Hptr).
  assert (Hm : is_Some (Canvas.m_programs (this e) !! "monochrome"%string))
    by (apply elem_of_dom; rewrite Hdom; apply monochrome_key).
  destruct Hp as [p Hp], Hm as [pm Hm].
  destruct op.
  2: { unfold call. canvas_unfold. monad_unfold. cbn.
       destruct (Canvas.m_programs (this e) !! key) eqn:Hk; cbn;
         (eexists; split; [reflexivity|]); cbn; repeat split; eauto.
       rewrite <- Hdom. apply elem_of_dom. eauto. }
  all: unfold call; canvas_unfold; unfold Image.read in *; monad_unfold;
    cbn -[insert lookup delete alter dom];
    rewrite ?Hp, ?Hm; cbn -[insert lookup delete alter dom];
    repeat (case_match; simplify_eq/=);
    (eexists; split; [reflexivity|]); cbn -[insert lookup delete alter dom];
    rewrite ?lookup_insert_eq; cbn -[insert lookup delete alter dom];
    ok_finish.
Qed.

Lemma run_preserves_ok `{PixelOps} (ops : list CanvasOp) (e e' : Env Canvas.t) :
  canvas_ok e -> run ops e = Some e' -> canvas_ok e'.
Proof.
  revert e. induction ops as [| op rest IH]; intros e Hok Hrun.
  - injection Hrun as <-. exact Hok.
  - destruct (call_preserves_ok op e Hok) as (e1 & Hcall & Hok1).
    cbn [run] in Hrun. rewrite Hcall in Hrun. eauto.
Qed.

Lemma constructed_ok `{PixelOps} (w0 w : World) (c : Canvas.t)
    (ops : list CanvasOp) (e : Env Canvas.t) :
  Canvas.Canvas w0 = Ret c w ->
  run ops {| this := c; world := w |} = Some e ->
  canvas_ok e.
Proof.
  intros Hc Hrun. eapply run_preserves_ok; [|exact Hrun].
  eapply Canvas_establishes_ok. exact Hc.
Qed.





(** X3.  On a canvas reached from the constructor the shaders that can
    be selected are "color", "grayscale" and "monochrome", whatever was
    called before: [set_shader] with one of them returns with that entry
    selected and nothing else changed; with any other key it throws
    [std::out_of_range] and changes nothing. *)
Theorem selectable_shaders `{PixelOps} (w0 w : World) (c : Canvas.t)
    (ops : list CanvasOp) (e : Env Canvas.t) (key : string) :
  Canvas.Canvas w0 = Ret c w ->
  run ops {| this := c; world := w |} = Some e ->
  (key ∈ shader_keys ->
     Canvas.set_shader key e = Ret tt (upd_this (Canvas.set_m_program key) e))
  /\ (key ∉ shader_keys -> Canvas.set_shader key e = Raise out_of_range e).
Proof.
  intros Hc Hrun.
  destruct (constructed_ok _ _ _ _ _ Hc Hrun) as (Hdom & _).
  split; intros Hk; rewrite <- Hdom in Hk.
  - apply elem_of_dom in Hk as [p Hp]. canvas_unfold. monad_unfold. cbn.
    rewrite Hp. reflexivity.
  - apply not_elem_of_dom in Hk. canvas_unfold. monad_unfold. cbn.
    rewrite Hk. reflexivity.
Qed.

Lemma selectable_shaders_witness :
  @Canvas.Canvas plain_pixels (world0 ∅) = Ret canvas1 world1
  /\ exists e,
       @run plain_pixels sample_calls env1 = Some e
       /\ Canvas.set_shader "grayscale" e
          = Ret tt (upd_this (Canvas.set_m_program "grayscale") e)
       /\ Canvas.set_shader "Color" e = Raise out_of_range e.
Proof.
  split; [vm_compute; reflexivity|].
  destruct (@run plain_pixels sample_calls env1) as [e|] eqn:Hrun;
    [|vm_compute in Hrun; discriminate].
  exists e. split; [reflexivity|].
  split.
  - eapply (@selectable_shaders plain_pixels (world0 ∅) world1 canvas1);
      [vm_compute; reflexivity | exact Hrun | vm_compute; reflexivity].
  - eapply (@selectable_shaders plain_pixels (world0 ∅) world1 canvas1);
      [vm_compute; reflexivity | exact Hrun | ].
    apply (proj1 (bool_decide_eq_false _)). vm_compute. reflexivity.
Defined.

(** ** The two constructors *)

Lemma no_free_nil (a : N) : Free a ∉ @nil MemEvent.
Proof. apply not_elem_of_nil. Qed.

Lemma no_free_alloc (a b : N) : Free a ∉ [Alloc b].
Proof. intros Hin. apply list_elem_of_singleton in Hin. discriminate. Qed.

(** X5.  [Canvas()] throws [ShaderException] exactly when a stage of the
    "color" program fails to compile, and what it had created by then
    (the texture, the three programs, the image buffer) stays allocated;
    otherwise it returns a canvas with the three shaders, "color"
    selected and not failed, at zoom factor 1.0f. *)
Theorem Canvas_constructor_outcomes `{PixelOps} (w : World) :
  let n := gl_next (gl w) in
  if bool_decide ("assets/shaders/basic.vert"%string ∈ gl_broken (gl w))
     || bool_decide ("assets/shaders/color.frag"%string ∈ gl_broken (gl w))
  then exists w', Canvas.Canvas w = Raise ShaderException w'
         /\ gl_programs (gl w')
            = {[(n + 1 + 1 + 1)%N]} ∪ ({[(n + 1 + 1)%N]} ∪ ({[(n + 1)%N]} ∪ gl_programs (gl w)))
         /\ is_Some (gl_textures (gl w') !! n)
         /\ exists evs, mem_events (mem w') = mem_events (mem w) ++ evs
                        /\ forall a, Free a ∉ evs
  else exists c w', Canvas.Canvas w = Ret c w'
         /\ Canvas.m_program c = "color"%string
         /\ Canvas.m_zoom c = Float32.one
         /\ dom (Canvas.m_programs c) = shader_keys
         /\ exists p, Canvas.m_programs c !! "color"%string = Some p
                      /\ Program.has_failed p = false.
Proof.
  unfold Canvas.Canvas, Image.Image, Image.of_bitmap, Image.alloc,
    Texture2D.Texture2D, Texture2D.upload, Program.Program, Program.has_failed,
    Canvas.programs_at.
  monad_unfold.
  destruct (files (mem w) !! _); cbn -[insert lookup dom];
    repeat (rewrite lookup_insert_eq; cbn -[insert lookup dom]);
    destruct (_ || _) eqn:Hfailed; cbn -[insert lookup dom].
  - eexists. split; [reflexivity|]. cbn -[insert lookup dom].
    split; [reflexivity|]. split; [rewrite lookup_insert_eq; eauto|].
    eexists. split; [reflexivity|]. intros ?; apply no_free_alloc.
  - eexists _, _. split; [reflexivity|]. cbn -[insert lookup dom].
    split; [reflexivity|]. split; [reflexivity|].
    split; [rewrite !dom_insert_L, dom_empty_L; unfold shader_keys; set_solver|].
    eexists. rewrite lookup_insert_eq. split; reflexivity.
  - eexists. split; [reflexivity|]. cbn -[insert lookup dom].
    split; [reflexivity|]. split; [rewrite lookup_insert_eq; eauto|].
    exists []. split; [rewrite app_nil_r; reflexivity|]. intros ?; apply no_free_nil.
  - eexists _, _. split; [reflexivity|]. cbn -[insert lookup dom].
    split; [reflexivity|]. split; [reflexivity|].
    split; [rewrite !dom_insert_L, dom_empty_L; unfold shader_keys; set_solver|].
    eexists. rewrite lookup_insert_eq. split; reflexivity.
Qed.

(** X6.  [Dialog(window)] throws [ShaderException] exactly when a stage
    of its one program fails to compile, leaving the texture and the
    program it had created unreleased; otherwise it returns a dialog
    whose program has not failed. *)
Theorem Dialog_constructor_outcomes `{PixelOps} (w : World) :
  let n := gl_next (gl w) in
  if bool_decide ("assets/shaders/basic.vert"%string ∈ gl_broken (gl w))
     || bool_decide ("assets/shaders/basic.frag"%string ∈ gl_broken (gl w))
  then exists w', Dialog.Dialog w = Raise ShaderException w'
         /\ gl_programs (gl w') = {[(n + 1)%N]} ∪ gl_programs (gl w)
         /\ is_Some (gl_textures (gl w') !! n)
         /\ exists evs, mem_events (mem w') = mem_events (mem w) ++ evs
                        /\ forall a, Free a ∉ evs
  else exists d w', Dialog.Dialog w = Ret d w'
         /\ Program.has_failed (Dialog.m_program d) = false
         /\ prog_id (Dialog.m_program d) = (n + 1)%N
         /\ tex_id (Dialog.m_texture d) = n
         /\ gl_textures (gl w') !! n = Some (Image.read w' (Dialog.m_image d)).
Proof.
  unfold Dialog.Dialog, Image.Image, Image.of_bitmap, Image.alloc,
    Texture2D.Texture2D, Texture2D.upload, Program.Program, Program.has_failed,
    Image.read.
  monad_unfold.
  destruct (files (mem w) !! _); cbn -[insert lookup];
    destruct (_ || _) eqn:Hfailed; cbn -[insert lookup].
  - eexists. split; [reflexivity|]. cbn -[insert lookup].
    split; [reflexivity|]. split; [rewrite lookup_insert_eq; eauto|].
    eexists. split; [reflexivity|]. intros ?; apply no_free_alloc.
  - eexists _, _. split; [reflexivity|]. cbn -[insert lookup].
    rewrite !lookup_insert_eq. auto.
  - eexists. split; [reflexivity|]. cbn -[insert lookup].
    split; [reflexivity|]. split; [rewrite lookup_insert_eq; eauto|].
    exists []. split; [rewrite app_nil_r; reflexivity|]. intros ?; apply no_free_nil.
  - eexists _, _. split; [reflexivity|]. cbn -[insert lookup].
    rewrite !lookup_insert_eq. auto.
Qed.

(** ** Images, files and memory *)

(** X7.  [change_image] with a path that loads releases the previous
    buffer first and then loads the file: the memory events of the call
    are the release followed by one allocation, the released buffer is
    gone, and the canvas image and its texture show the file as the
    loader decodes it. *)
Theorem change_image_releases_before_loading `{PixelOps} (path_image : string)
    (e : Env Canvas.t) (a : N) (file : Bitmap) :
  img_data (Canvas.m_image (this e)) = Some a ->
  (a < heap_next (mem (world e)))%N ->
  files (mem (world e)) !! path_image = Some file ->
  exists e',
    Canvas.change_image path_image e = Ret tt e'
    /\ mem_events (mem (world e'))
       = mem_events (mem (world e)) ++ [Free a; Alloc (heap_next (mem (world e)))]
    /\ heap (mem (world e')) !! a = None
    /\ img_data (Canvas.m_image (this e')) <> Some a
    /\ Image.read (world e') (Canvas.m_image (this e')) = decode (Some false) file
    /\ gl_textures (gl (world e')) !! tex_id (Canvas.m_texture (this e'))
       = Some (decode (Some false) file).
Proof.
  intros Ha Hlt Hf. canvas_unfold. unfold Image.read. monad_unfold.
  cbn -[insert lookup delete]. rewrite Ha. cbn -[insert lookup delete].
  rewrite Hf. cbn -[insert lookup delete].
  eexists. split; [reflexivity|]. cbn -[insert lookup delete].
  rewrite <- app_assoc. split; [reflexivity|].
  split; [rewrite lookup_insert_ne by lia; apply lookup_delete_eq|].
  split; [intros [= Heq]; lia|].
  rewrite !lookup_insert_eq. split; reflexivity.
Qed.

Lemma change_image_releases_before_loading_witness :
  img_data (Canvas.m_image (this env1)) = Some 1%N
  /\ files (mem (world env1)) !! "./assets/images/grass_logo.png"%string = Some two_pixels
  /\ exists e',
       @Canvas.change_image plain_pixels "./assets/images/grass_logo.png" env1 = Ret tt e'
       /\ mem_events (mem (world e'))
          = mem_events (mem (world env1)) ++ [Free 1%N; Alloc (heap_next (mem (world env1)))]
       /\ heap (mem (world e')) !! 1%N = None.
Proof.
  split; [reflexivity|]. split; [reflexivity|].
  destruct (@change_image_releases_before_loading plain_pixels
              "./assets/images/grass_logo.png" env1 1%N two_pixels
              eq_refl eq_refl eq_refl) as (e' & Hr & He & Hh & _).
  exists e'. auto.
Defined.

(** X8.  [draw_circle] draws at the position that
    [ImGuiUtils::get_mouse_position] returns for the origin (0, height of
    the menu + height of the toolbar), goes through the file
    "/tmp/image.png", which it overwrites, leaving every other file
    alone, and leaves the canvas image and its texture showing what was
    loaded back from that file. *)
Theorem draw_circle_through_temporary_file `{PixelOps} (e : Env Canvas.t)
    (position_mouse_img : ImVec2) :
  let w := world e in
  let y_offset := Float32.add (Size_menu (statics w)).2 (Size_toolbar (statics w)).2 in
  ImGuiUtils.get_mouse_position (Float32.zero, y_offset) w = Ret position_mouse_img w ->
  let drawn :=
    circle_pixels (Image.read w (Canvas.m_image (this e)))
      position_mouse_img.1 position_mouse_img.2 in
  exists e',
    Canvas.draw_circle e = Ret tt e'
    /\ files (mem (world e')) !! "/tmp/image.png"%string = Some drawn
    /\ (forall path, path <> "/tmp/image.png"%string ->
          files (mem (world e')) !! path = files (mem w) !! path)
    /\ Image.read (world e') (Canvas.m_image (this e')) = decode (Some false) drawn
    /\ gl_textures (gl (world e')) !! tex_id (Canvas.m_texture (this e'))
       = Some (decode (Some false) drawn).
Proof.
  intros w y_offset Hpos drawn. subst w y_offset drawn.
  unfold ImGuiUtils.get_mouse_position, gets in Hpos. injection Hpos as <-.
  canvas_unfold. unfold Image.read. monad_unfold.
  cbn -[insert lookup delete alter].
  destruct (img_data (Canvas.m_image (this e))) as [a|] eqn:Ha;
    cbn -[insert lookup delete alter];
    repeat (progress (rewrite ?lookup_alter_eq, ?lookup_insert_eq);
            cbn -[insert lookup delete alter]);
    (eexists; split; [reflexivity|]); cbn -[insert lookup delete alter];
    repeat (progress (rewrite ?lookup_alter_eq, ?lookup_insert_eq);
            cbn -[insert lookup delete alter]);
    (split; [reflexivity|]);
    (split; [intros path Hne; apply lookup_insert_ne; congruence|]);
    auto.
Qed.

Lemma draw_circle_through_temporary_file_witness :
  ImGuiUtils.get_mouse_position
    (Float32.zero, Float32.add (Float32.of_Z 19) Float32.zero) (world env1)
    = Ret (Float32.sub Float32.zero Float32.zero,
           Float32.sub Float32.zero (Float32.add (Float32.of_Z 19) Float32.zero))
          (world env1)
  /\ exists e',
       @Canvas.draw_circle plain_pixels env1 = Ret tt e'
       /\ files (mem (world e')) !! "/tmp/image.png"%string = Some two_pixels.
Proof.
  split; [reflexivity|].
  destruct (@draw_circle_through_temporary_file plain_pixels env1
              (Float32.sub Float32.zero Float32.zero,
               Float32.sub Float32.zero (Float32.add (Float32.of_Z 19) Float32.zero))
              eq_refl) as (e' & Hr & Hf & _).
  exists e'. split; [exact Hr | exact Hf].
Defined.

(** X9.  Saving the image and then changing to the saved path brings back
    the pixels that were saved, as the loader decodes them: the file
    holds the pixels of the image, and the canvas and its texture show
    their decoding. *)
Theorem save_then_change_image `{PixelOps} (path_image : string) (e : Env Canvas.t) :
  let saved := Image.read (world e) (Canvas.m_image (this e)) in
  exists e',
    (Canvas.save_image path_image;; Canvas.change_image path_image) e = Ret tt e'
    /\ files (mem (world e')) !! path_image = Some saved
    /\ Image.read (world e') (Canvas.m_image (this e')) = decode (Some false) saved
    /\ gl_textures (gl (world e')) !! tex_id (Canvas.m_texture (this e'))
       = Some (decode (Some false) saved).
Proof.
  intros saved. subst saved.
  canvas_unfold. unfold Image.read. monad_unfold.
  cbn -[insert lookup delete].
  destruct (img_data (Canvas.m_image (this e))) as [a|] eqn:Ha;
    cbn -[insert lookup delete];
    rewrite ?lookup_insert_eq; cbn -[insert lookup delete];
    (eexists; split; [reflexivity|]); cbn -[insert lookup delete];
    rewrite ?lookup_insert_eq; cbn -[insert lookup delete]; auto.
Qed.

(** ** Releasing *)

(** Releasing every program of a collection, in whatever order the
    collection is traversed. *)
Lemma free_all_programs (programs : gmap string Program) (w : World) :
  exists w',
    map_fold (fun _ p rest => rest;; Program.free p) (mret tt) programs w = Ret tt w'
    /\ mem w' = mem w /\ frame w' = frame w /\ statics w' = statics w
    /\ gl_textures (gl w') = gl_textures (gl w)
    /\ forall id, id ∈ gl_programs (gl w') <->
         id ∈ gl_programs (gl w)
         /\ forall k p, programs !! k = Some p -> prog_id p <> id.
Proof.
  revert w.
  apply (map_fold_weak_ind
    (fun (r : M World unit) (m : gmap string Program) => forall w, exists w',
      r w = Ret tt w'
      /\ mem w' = mem w /\ frame w' = frame w /\ statics w' = statics w
      /\ gl_textures (gl w') = gl_textures (gl w)
      /\ forall id, id ∈ gl_programs (gl w') <->
           id ∈ gl_programs (gl w)
           /\ forall k p, m !! k = Some p -> prog_id p <> id)).
  - intros w. exists w. repeat split; try tauto.
    intros k p Hk. rewrite lookup_empty in Hk. discriminate.
  - intros i x m r Hi IH w.
    destruct (IH w) as (w1 & Hr & Hmem & Hfr & Hst & Htex & Hprog).
    unfold mbind, M_bind. rewrite Hr. unfold Program.free, modify.
    eexists. split; [reflexivity|]. cbn.
    split; [exact Hmem|]. split; [exact Hfr|]. split; [exact Hst|].
    split; [exact Htex|].
    intros id. rewrite elem_of_difference, elem_of_singleton, Hprog. split.
    + intros [[Hin Hall] Hne]. split; [exact Hin|]. intros k p Hk Heq.
      apply lookup_insert_Some in Hk as [[_ <-] | [_ Hk]];
        [congruence | exact (Hall k p Hk Heq)].
    + intros [Hin Hall]. split; [split; [exact Hin|] |].
      * intros k p Hk. apply (Hall k p).
        rewrite lookup_insert_ne; [exact Hk | congruence].
      * intros Heq. apply (Hall i x); [apply lookup_insert_eq | congruence].
Qed.

(** X10.  [Canvas::free] deletes the texture and releases every program
    of the collection, and nothing else: the image buffer stays
    allocated, and the canvas object is unchanged, so that its program
    pointer now refers to a released program. *)
Theorem Canvas_free_releases_texture_and_programs (e : Env Canvas.t) :
  exists e',
    Canvas.free e = Ret tt e'
    /\ this e' = this e
    /\ mem (world e') = mem (world e)
    /\ gl_textures (gl (world e'))
       = delete (tex_id (Canvas.m_texture (this e))) (gl_textures (gl (world e)))
    /\ (forall id, id ∈ gl_programs (gl (world e')) <->
          id ∈ gl_programs (gl (world e))
          /\ forall k p, Canvas.m_programs (this e) !! k = Some p -> prog_id p <> id)
    /\ ~ program_pointer_live e'.
Proof.
  enough (Hwp : wp Canvas.free (fun _ e' =>
    this e' = this e
    /\ mem (world e') = mem (world e)
    /\ gl_textures (gl (world e'))
       = delete (tex_id (Canvas.m_texture (this e))) (gl_textures (gl (world e)))
    /\ (forall id, id ∈ gl_programs (gl (world e')) <->
          id ∈ gl_programs (gl (world e))
          /\ forall k p, Canvas.m_programs (this e) !! k = Some p -> prog_id p <> id)
    /\ ~ program_pointer_live e') e).
  { apply wp_returns in Hwp as ([] & e' & Hrun & Hq). eauto. }
  unfold Canvas.free, Texture2D.free.
  apply wp_bind, wp_gets, wp_bind, wp_liftW, wp_modify, wp_liftW.
  destruct (free_all_programs (Canvas.m_programs (this e))
              (upd_gl (fun g => set_gl_textures
                         (delete (tex_id (Canvas.m_texture (this e))) (gl_textures g)) g)
                 (world e)))
    as (w' & Hr & Hmem & Hfr & Hst & Htex & Hprog).
  eapply wp_run; [exact Hr|]. cbn.
  split; [reflexivity|]. split; [exact Hmem|]. split; [exact Htex|].
  split; [exact Hprog|].
  intros (p & Hp & Hlive). cbn in Hp, Hlive.
  apply Hprog in Hlive as [_ Hall]. exact (Hall _ _ Hp eq_refl).
Qed.

(** X11.  [Dialog::free] deletes the texture and releases the program,
    and leaves the image buffer allocated. *)
Theorem Dialog_free_releases_texture_and_program (e : Env Dialog.t) :
  exists e',
    Dialog.free e = Ret tt e'
    /\ this e' = this e
    /\ mem (world e') = mem (world e)
    /\ gl_textures (gl (world e'))
       = delete (tex_id (Dialog.m_texture (this e))) (gl_textures (gl (world e)))
    /\ gl_programs (gl (world e'))
       = gl_programs (gl (world e)) ∖ {[prog_id (Dialog.m_program (this e))]}.
Proof.
  unfold Dialog.free, Texture2D.free, Program.free. monad_unfold. cbn.
  eexists. split; [reflexivity|]. cbn. auto.
Qed.

(** ** One frame of the canvas *)

(** Everything one [render] does, whatever the input of the frame. *)
Lemma render_effect (e : Env Canvas.t) (p : Program) :
  Canvas.m_programs (this e) !! Canvas.m_program (this e) = Some p ->
  let c := this e in
  let w := world e in
  let i := input (frame w) in
  let y_offset := Float32.add (Size_menu (statics w)).2 (Size_toolbar (statics w)).2 in
  let clicked :=
    IsItemClicked i && bool_decide (Mouse_click_mode (statics w) = DRAW_CIRCLE) in
  exists w',
    Canvas.render e = Ret tt {| this := c; world := w' |}
    /\ mem w' = mem w
    /\ input (frame w') = i
    /\ draw_list (frame w')
       = draw_list (frame w)
         ++ [CmdCallback Canvas_draw_with_custom_shader None;
             CmdImage (tex_id (Canvas.m_texture c))
               (Float32.mul (Canvas.m_zoom c)
                  (Float32.of_Z (Z.of_N (tex_width (Canvas.m_texture c)))),
                Float32.mul (Canvas.m_zoom c)
                  (Float32.of_Z (Z.of_N (tex_height (Canvas.m_texture c)))));
             CmdCallback ImDrawCallback_ResetRenderState None]
    /\ tooltips (frame w')
       = tooltips (frame w)
         ++ (if IsItemHovered i then
               match Mouse_hover_mode (statics w) with
               | IMAGE_SUBSET => [TooltipImage_render y_offset (Canvas.m_zoom c)]
               | PIXEL_VALUE => [TooltipPixel_render y_offset]
               | HoverMode_NONE => []
               end
             else [])
    /\ statics w'
       = set_Menu_draw_circle (clicked || Menu_draw_circle (statics w))
           (set_toolbar
              (set_Toolbar_draw_circle
                 (clicked || Toolbar_draw_circle (toolbar (statics w)))
                 (toolbar (statics w)))
              (set_callback_data (prog_id p, tex_id (Canvas.m_texture c))
                 (set_Size_canvas
                    ((DisplaySize i).1, Float32.sub (DisplaySize i).2 y_offset)
                    (statics w))))
    /\ gl w' = set_gl_bound_texture (Some (tex_id (Canvas.m_texture c))) (gl w).
Proof.
  intros Hp. cbn zeta.
  destruct e as [c [m g [i dl tps]
                    [cd [oi si qa zi zo dc dl' hm] mc ml clk hov sm st sc loc wsc fdo]]].
  cbn in Hp |- *.
  canvas_unfold. monad_unfold. cbn. rewrite Hp. cbn.
  destruct (IsItemClicked i), (bool_decide (clk = DRAW_CIRCLE)),
    (IsItemHovered i), hov; cbn;
    (eexists; split; [reflexivity|]); cbn;
    rewrite <- ?app_assoc, ?app_nil_r; cbn;
    repeat split; destruct dc, mc; reflexivity.
Qed.

(** X12.  [Canvas::render] only records: it appends to the draw list the
    callback, the image command of its texture scaled by the zoom factor,
    and the reset callback, in this order; it stores the identifiers of
    the selected program and of the texture in [callback_data] and the
    size left below menu and toolbar in [Size::canvas].  It draws
    nothing, makes no program current, and changes neither the canvas
    nor memory. *)
Theorem render_records_three_commands (e : Env Canvas.t) (p : Program) :
  Canvas.m_programs (this e) !! Canvas.m_program (this e) = Some p ->
  let c := this e in
  let i := input (frame (world e)) in
  let y_offset :=
    Float32.add (Size_menu (statics (world e))).2 (Size_toolbar (statics (world e))).2 in
  exists e',
    Canvas.render e = Ret tt e'
    /\ this e' = c
    /\ mem (world e') = mem (world e)
    /\ draw_list (frame (world e'))
       = draw_list (frame (world e))
         ++ [CmdCallback Canvas_draw_with_custom_shader None;
             CmdImage (tex_id (Canvas.m_texture c))
               (Float32.mul (Canvas.m_zoom c)
                  (Float32.of_Z (Z.of_N (tex_width (Canvas.m_texture c)))),
                Float32.mul (Canvas.m_zoom c)
                  (Float32.of_Z (Z.of_N (tex_height (Canvas.m_texture c)))));
             CmdCallback ImDrawCallback_ResetRenderState None]
    /\ callback_data (statics (world e')) = (prog_id p, tex_id (Canvas.m_texture c))
    /\ Size_canvas (statics (world e'))
       = ((DisplaySize i).1, Float32.sub (DisplaySize i).2 y_offset)
    /\ gl_drawn (gl (world e')) = gl_drawn (gl (world e))
    /\ gl_program_in_use (gl (world e')) = gl_program_in_use (gl (world e))
    /\ gl_bound_texture (gl (world e')) = Some (tex_id (Canvas.m_texture c)).
Proof.
  intros Hp c i y_offset.
  destruct (render_effect e p Hp) as (w' & Hrun & Hmem & _ & Hdl & _ & Hst & Hgl).
  eexists. split; [exact Hrun|]. cbn.
  rewrite Hst, Hgl. repeat split; assumption.
Qed.

Lemma render_records_three_commands_witness :
  Canvas.m_programs (this env1) !! Canvas.m_program (this env1)
    = Some {| prog_id := 2%N; prog_failed := false |}
  /\ exists e',
       Canvas.render env1 = Ret tt e'
       /\ callback_data (statics (world e')) = (2%N, 1%N)
       /\ gl_drawn (gl (world e')) = [].
Proof.
  split; [reflexivity|].
  destruct (render_records_three_commands env1
              {| prog_id := 2%N; prog_failed := false |} eq_refl)
    as (e' & Hrun & _ & _ & _ & Hcd & _ & Hdrawn & _).
  exists e'. repeat split; assumption.
Defined.

(** X13.  A click on the image asks for a circle in [DRAW_CIRCLE] mode
    only, by setting the draw-circle flags of the toolbar and of the
    menu; [render] never clears them and never changes the mouse modes.
    Hovering the image shows the tooltip of the hover mode, and none in
    mode [NONE]. *)
Theorem render_image_click_and_hover (e : Env Canvas.t) (p : Program) :
  Canvas.m_programs (this e) !! Canvas.m_program (this e) = Some p ->
  let s := statics (world e) in
  let i := input (frame (world e)) in
  let y_offset := Float32.add (Size_menu s).2 (Size_toolbar s).2 in
  let clicked := IsItemClicked i && bool_decide (Mouse_click_mode s = DRAW_CIRCLE) in
  exists e',
    Canvas.render e = Ret tt e'
    /\ Toolbar_draw_circle (toolbar (statics (world e')))
       = clicked || Toolbar_draw_circle (toolbar s)
    /\ Menu_draw_circle (statics (world e')) = clicked || Menu_draw_circle s
    /\ Mouse_click_mode (statics (world e')) = Mouse_click_mode s
    /\ Mouse_hover_mode (statics (world e')) = Mouse_hover_mode s
    /\ tooltips (frame (world e'))
       = tooltips (frame (world e))
         ++ (if IsItemHovered i then
               match Mouse_hover_mode s with
               | IMAGE_SUBSET =>
                   [TooltipImage_render y_offset (Canvas.m_zoom (this e))]
               | PIXEL_VALUE => [TooltipPixel_render y_offset]
               | HoverMode_NONE => []
               end
             else []).
Proof.
  intros Hp s i y_offset clicked.
  destruct (render_effect e p Hp) as (w' & Hrun & _ & _ & _ & Htt & Hst & _).
  eexists. split; [exact Hrun|]. cbn.
  rewrite Hst. repeat split. exact Htt.
Qed.

Lemma render_image_click_and_hover_witness :
  Canvas.m_programs (this env1) !! Canvas.m_program (this env1)
    = Some {| prog_id := 2%N; prog_failed := false |}
  /\ exists e',
       Canvas.render env1 = Ret tt e'
       /\ Menu_draw_circle (statics (world e')) = false
       /\ tooltips (frame (world e')) = [].
Proof.
  split; [reflexivity|].
  destruct (render_image_click_and_hover env1
              {| prog_id := 2%N; prog_failed := false |} eq_refl)
    as (e' & Hrun & _ & Hm & _ & _ & Htt).
  exists e'. repeat split; assumption.
Defined.

(** X14.  [draw_circle] ends the circle mode: in the frames after it,
    whatever their input, a click on the image asks for no circle. *)
Theorem click_after_draw_circle_asks_nothing `{PixelOps}
    (e : Env Canvas.t) (p : Program) (i : Input) :
  Canvas.m_programs (this e) !! Canvas.m_program (this e) = Some p ->
  exists e1 e2,
    Canvas.draw_circle e = Ret tt e1
    /\ call (Op_render i) e1 = Ret tt e2
    /\ toolbar (statics (world e2)) = toolbar (statics (world e))
    /\ Menu_draw_circle (statics (world e2)) = Menu_draw_circle (statics (world e))
    /\ Mouse_click_mode (statics (world e2)) = ClickMode_NONE.
Proof.
  intros Hp.
  destruct (draw_circle_flags e) as (e1 & Hrun1 & Hmode & Htb & Hmc).
  assert (Hthis : Canvas.m_programs (this e1) = Canvas.m_programs (this e)
                  /\ Canvas.m_program (this e1) = Canvas.m_program (this e)).
  { revert Hrun1. canvas_unfold. monad_unfold. cbn.
    destruct (img_data (Canvas.m_image (this e))); cbn;
      rewrite lookup_insert_eq; cbn; intros [= <-]; split; reflexivity. }
  destruct Hthis as [Hps Hpk].
  pose (e1' := upd_world (upd_frame (set_input i)) e1).
  assert (Hp1 : Canvas.m_programs (this e1') !! Canvas.m_program (this e1') = Some p).
  { cbn. rewrite Hps, Hpk. exact Hp. }
  destruct (render_effect e1' p Hp1) as (w' & Hrun2 & _ & _ & _ & _ & Hst & _).
  exists e1, {| this := this e1'; world := w' |}.
  split; [exact Hrun1|].
  split.
  { unfold call. monad_unfold. exact Hrun2. }
  cbn. rewrite Hst. cbn. cbn in Hmode, Htb, Hmc.
  destruct (statics (world e1))
    as [cd [oi si qa zi zo dc dl' hm] mc ml clk hov sm st sc loc wsc fdo].
  cbn in Hmode, Htb, Hmc |- *. rewrite Hmode.
  rewrite (bool_decide_eq_false_2 (ClickMode_NONE = DRAW_CIRCLE)) by discriminate.
  rewrite andb_false_r. cbn. rewrite <- Htb, <- Hmc. repeat split; reflexivity.
Qed.

Lemma click_after_draw_circle_asks_nothing_witness :
  Canvas.m_programs (this env1) !! Canvas.m_program (this env1)
    = Some {| prog_id := 2%N; prog_failed := false |}
  /\ exists e1 e2,
       @Canvas.draw_circle plain_pixels env1 = Ret tt e1
       /\ @call plain_pixels (Op_render idle_input) e1 = Ret tt e2
       /\ Menu_draw_circle (statics (world e2)) = false.
Proof.
  split; [reflexivity|].
  destruct (@click_after_draw_circle_asks_nothing plain_pixels env1
              {| prog_id := 2%N; prog_failed := false |} idle_input eq_refl)
    as (e1 & e2 & H1 & H2 & _ & Hm & _).
  exists e1, e2. repeat split; assumption.
Defined.

(** ** Replaying a draw list *)

Lemma bind_returns {S A B} (m : M S A) (f : A -> M S B) (s s' : S) (b : B) :
  (m ≫= f) s = Ret b s' -> exists a s1, m s = Ret a s1 /\ f a s1 = Ret b s'.
Proof.
  unfold mbind, M_bind. destruct (m s) as [a s1 | |]; [eauto | discriminate..].
Qed.

Lemma bind_run {S A B} (m : M S A) (f : A -> M S B) (s s1 : S) (a : A) (r : Res S B) :
  m s = Ret a s1 -> f a s1 = r -> (m ≫= f) s = r.
Proof. unfold mbind, M_bind. intros -> ->. reflexivity. Qed.

Lemma RenderDrawData_replays
    (user_callback : ImDrawCallback -> option (Program * Texture2D) -> M World unit)
    (w : World) :
  ImGui_ImplOpenGL3.RenderDrawData user_callback w
  = foldl (fun done cmd => done;; ImGui_ImplOpenGL3.exec user_callback cmd)
      (mret tt) (draw_list (frame w)) w.
Proof. reflexivity. Qed.

(** A command that the backend executes changes the OpenGL state only,
    and does not look at the draw list. *)
Lemma exec_effect (cmd : ImDrawCmd) (l : list ImDrawCmd) (w w' : World) :
  ImGui_ImplOpenGL3.exec Dialog.user_callback cmd w = Ret tt w' ->
  statics w' = statics w /\ frame w' = frame w /\ mem w' = mem w
  /\ ImGui_ImplOpenGL3.exec Dialog.user_callback cmd (upd_frame (set_draw_list l) w)
     = Ret tt (upd_frame (set_draw_list l) w').
Proof.
  unfold ImGui_ImplOpenGL3.exec, Dialog.user_callback, Dialog.draw_with_custom_shader.
  canvas_unfold. monad_unfold.
  destruct cmd as [[] [[program texture]|] | texture size]; cbn;
    try discriminate; intros [= <-]; repeat split; reflexivity.
Qed.

Lemma replay_effect (cmds l : list ImDrawCmd) (w w' : World) :
  foldl (fun done cmd => done;; ImGui_ImplOpenGL3.exec Dialog.user_callback cmd)
    (mret tt) cmds w = Ret tt w' ->
  statics w' = statics w /\ frame w' = frame w /\ mem w' = mem w
  /\ foldl (fun done cmd => done;; ImGui_ImplOpenGL3.exec Dialog.user_callback cmd)
       (mret tt) cmds (upd_frame (set_draw_list l) w)
     = Ret tt (upd_frame (set_draw_list l) w').
Proof.
  revert w'. induction cmds as [| cmd cmds IH] using rev_ind; intros w' Hrun.
  - injection Hrun as <-. repeat split; reflexivity.
  - rewrite foldl_snoc in Hrun |- *.
    apply bind_returns in Hrun as ([] & w1 & Hrun1 & Hrun2).
    destruct (IH w1 Hrun1) as (Hs1 & Hf1 & Hm1 & Hl1).
    destruct (exec_effect cmd l w1 w' Hrun2) as (Hs2 & Hf2 & Hm2 & Hl2).
    split; [congruence|]. split; [congruence|]. split; [congruence|].
    unfold mbind, M_bind in *. rewrite Hl1. exact Hl2.
Qed.

Lemma set_draw_list_same (w : World) :
  upd_frame (set_draw_list (draw_list (frame w))) w = w.
Proof. destruct w as [m g [i dl tps] s]. reflexivity. Qed.

Lemma set_draw_list_twice (l k : list ImDrawCmd) (w : World) :
  upd_frame (set_draw_list l) (upd_frame (set_draw_list k) w)
  = upd_frame (set_draw_list l) w.
Proof. destruct w as [m g [i dl tps] s]. reflexivity. Qed.

(** X15.  Whatever commands the frame already holds when [render] is
    called, the backend draws the texture of this canvas with the
    program this canvas has selected, and ends in ImGui's own render
    state: if replaying the earlier commands alone returns, replaying
    the whole list returns and draws one more item, the canvas texture
    with the selected program. *)
Theorem canvas_drawn_last_with_its_program (e e' : Env Canvas.t) (p : Program)
    (w_before : World) :
  Canvas.m_programs (this e) !! Canvas.m_program (this e) = Some p ->
  Canvas.render e = Ret tt e' ->
  ImGui_ImplOpenGL3.RenderDrawData Dialog.user_callback
    (upd_frame (set_draw_list (draw_list (frame (world e)))) (world e'))
    = Ret tt w_before ->
  exists w',
    ImGui_ImplOpenGL3.RenderDrawData Dialog.user_callback (world e') = Ret tt w'
    /\ gl_drawn (gl w')
       = gl_drawn (gl w_before)
         ++ [(Some (prog_id p), tex_id (Canvas.m_texture (this e)))]
    /\ gl_program_in_use (gl w') = None
    /\ mem w' = mem (world e)
    /\ statics w' = statics (world e').
Proof.
  intros Hp Hrun Hbefore.
  destruct (render_effect e p Hp) as (w1 & Hrun' & Hmem & _ & Hdl & _ & Hst & _).
  rewrite Hrun in Hrun'. injection Hrun' as ->. cbn in Hbefore |- *.
  rewrite RenderDrawData_replays in Hbefore |- *.
  assert (Hl : draw_list (frame (upd_frame (set_draw_list (draw_list (frame (world e)))) w1))
               = draw_list (frame (world e)))
    by (destruct w1 as [m g [i dl tps] s]; reflexivity).
  rewrite Hl in Hbefore. clear Hl.
  destruct (replay_effect _ (draw_list (frame w1)) _ _ Hbefore)
    as (Hs & Hf & Hm & Hreplay).
  rewrite set_draw_list_twice, set_draw_list_same in Hreplay.
  assert (Hcd : callback_data (statics w_before)
                = (prog_id p, tex_id (Canvas.m_texture (this e)))).
  { rewrite Hs. cbn. rewrite Hst. reflexivity. }
  eexists. split.
  { rewrite Hdl, foldl_app. cbn [foldl].
    eapply bind_run; [eapply bind_run; [eapply bind_run; [exact Hreplay|] |] |].
    - unfold ImGui_ImplOpenGL3.exec, Dialog.user_callback.
      canvas_unfold. monad_unfold. cbn -[insert]. rewrite Hcd. reflexivity.
    - reflexivity.
    - reflexivity. }
  cbn -[insert]. split; [reflexivity|]. split; [reflexivity|].
  rewrite Hm, Hs. cbn. auto.
Qed.

Lemma canvas_drawn_last_with_its_program_witness :
  exists e' w_before,
    Canvas.m_programs (this env1) !! Canvas.m_program (this env1)
      = Some {| prog_id := 2%N; prog_failed := false |}
    /\ Canvas.render env1 = Ret tt e'
    /\ ImGui_ImplOpenGL3.RenderDrawData Dialog.user_callback
         (upd_frame (set_draw_list (draw_list (frame (world env1)))) (world e'))
       = Ret tt w_before
    /\ exists w',
         ImGui_ImplOpenGL3.RenderDrawData Dialog.user_callback (world e') = Ret tt w'
         /\ gl_drawn (gl w') = gl_drawn (gl w_before) ++ [(Some 2%N, 1%N)]
         /\ gl_program_in_use (gl w') = None
         /\ mem w' = mem (world env1)
         /\ statics w' = statics (world e').
Proof.
  eexists _, _. split; [reflexivity|].
  split; [canvas_unfold; monad_unfold; cbn; reflexivity|].
  split; [cbn; reflexivity|].
  apply (canvas_drawn_last_with_its_program env1 _
           {| prog_id := 2%N; prog_failed := false |} _ eq_refl);
    [canvas_unfold; monad_unfold; cbn; reflexivity | cbn; reflexivity].
Defined.

(** ** Selecting a shader, then a frame *)

(** X16.  [set_shader] decides the program of the next frame: after a
    call with a key of the collection the canvas texture is drawn with
    the program of that key; after a call with any other key, which
    throws, it is drawn with the program selected before. *)
Theorem set_shader_decides_next_frame `{PixelOps} (key : string)
    (e : Env Canvas.t) (p : Program) (i : Input) :
  Canvas.m_programs (this e) !! Canvas.m_program (this e) = Some p ->
  draw_list (frame (world e)) = [] ->
  exists e' w',
    run [Op_set_shader key; Op_render i] e = Some e'
    /\ ImGui_ImplOpenGL3.RenderDrawData Dialog.user_callback (world e') = Ret tt w'
    /\ gl_drawn (gl w')
       = gl_drawn (gl (world e))
         ++ [(Some (prog_id (default p (Canvas.m_programs (this e) !! key))),
              tex_id (Canvas.m_texture (this e)))].
Proof.
  intros Hp Hdl.
  assert (Hset : exists k q,
            final_state (call (Op_set_shader key) e)
              = Some (upd_this (Canvas.set_m_program k) e)
            /\ Canvas.m_programs (this e) !! k = Some q
            /\ default p (Canvas.m_programs (this e) !! key) = q).
  { unfold call. canvas_unfold. monad_unfold. cbn.
    destruct (Canvas.m_programs (this e) !! key) as [q|] eqn:Hk; cbn.
    - exists key, q. auto.
    - exists (Canvas.m_program (this e)), p. split; [|auto].
      destruct e as [[] ?]. reflexivity. }
  destruct Hset as (k & q & Hcall & Hk & ->).
  pose (e1 := upd_world (upd_frame (set_input i))
                (upd_this (Canvas.set_m_program k) e)).
  assert (Hq : Canvas.m_programs (this e1) !! Canvas.m_program (this e1) = Some q)
    by exact Hk.
  assert (Hdl1 : draw_list (frame (world e1)) = []) by exact Hdl.
  destruct (frame_drawn_with_selected_program e1 q Hq Hdl1)
    as (e' & w' & Hrender & Hreplay & Hdrawn & _).
  exists e', w'. split; [|split; [exact Hreplay | exact Hdrawn]].
  cbn [run]. rewrite Hcall.
  assert (Hcall2 : call (Op_render i) (upd_this (Canvas.set_m_program k) e) = Ret tt e').
  { unfold call. eapply bind_run; [reflexivity | exact Hrender]. }
  rewrite Hcall2. reflexivity.
Qed.

Lemma set_shader_decides_next_frame_witness :
  Canvas.m_programs (this env1) !! Canvas.m_program (this env1)
    = Some {| prog_id := 2%N; prog_failed := false |}
  /\ draw_list (frame (world env1)) = []
  /\ exists e' w',
       @run plain_pixels [Op_set_shader "grayscale"; Op_render idle_input] env1 = Some e'
       /\ ImGui_ImplOpenGL3.RenderDrawData Dialog.user_callback (world e') = Ret tt w'
       /\ gl_drawn (gl w') = [(Some 3%N, 1%N)].
Proof.
  split; [reflexivity|]. split; [reflexivity|].
  destruct (@set_shader_decides_next_frame plain_pixels "grayscale" env1
              {| prog_id := 2%N; prog_failed := false |} idle_input eq_refl eq_refl)
    as (e' & w' & Hrun & Hreplay & Hdrawn).
  exists e', w'. split; [exact Hrun|]. split; [exact Hreplay|]. exact Hdrawn.
Defined.

(** ** The zoom factor in closed form *)

Lemma iter_double_normal (n : nat) (s : bool) (m : positive) (e : Z) :
  Z.pos (digits2_pos m) = 24%Z -> (-149 <= e <= 104)%Z ->
  Nat.iter n Float32.double (S754_finite s m e)
  = if (e + Z.of_nat n <=? 104)%Z then S754_finite s m (e + Z.of_nat n)
    else S754_infinity s.
Proof.
  intros Hd He. induction n as [| n IH].
  - cbn [Nat.iter nat_rect]. rewrite Z.add_0_r.
    destruct (Z.leb_spec e 104); [reflexivity | lia].
  - cbn [Nat.iter nat_rect]. fold (Nat.iter n Float32.double (S754_finite s m e)).
    rewrite IH. unfold Float32.double.
    destruct (Z.leb_spec (e + Z.of_nat n) 104) as [Hle | Hgt].
    + rewrite double_normal by lia.
      replace (e + Z.of_nat n + 1)%Z with (e + Z.of_nat (S n))%Z by lia.
      reflexivity.
    + destruct (Z.leb_spec (e + Z.of_nat (S n)) 104); [lia|].
      destruct s; reflexivity.
Qed.

Lemma iter_halve_normal (n : nat) (s : bool) (m : positive) (e : Z) :
  Z.pos (digits2_pos m) = 24%Z -> (-149 <= e - Z.of_nat n)%Z -> (e <= 104)%Z ->
  Nat.iter n Float32.halve (S754_finite s m e) = S754_finite s m (e - Z.of_nat n).
Proof.
  intros Hd. induction n as [| n IH]; intros He Hle.
  - cbn [Nat.iter nat_rect]. f_equal. lia.
  - cbn [Nat.iter nat_rect]. fold (Nat.iter n Float32.halve (S754_finite s m e)).
    rewrite IH by lia. unfold Float32.halve.
    rewrite halve_normal by lia. f_equal. lia.
Qed.

(** X17.  From a normal zoom factor, [n] calls of [zoom_in] add [n] to
    the binary exponent and keep sign and mantissa, as long as the
    exponent stays in range; beyond it the factor is infinite. *)
Theorem zoom_in_closed_form (n : nat) (e : Env Canvas.t)
    (s : bool) (m : positive) (x : Z) :
  Canvas.m_zoom (this e) = S754_finite s m x ->
  Z.pos (digits2_pos m) = 24%Z -> (-149 <= x <= 104)%Z ->
  zoomed_in n e
  = Some (if (x + Z.of_nat n <=? 104)%Z then S754_finite s m (x + Z.of_nat n)
          else S754_infinity s).
Proof.
  intros Hz Hd Hx. unfold zoomed_in. rewrite times_zoom_in. cbn.
  rewrite Hz, iter_double_normal by assumption. reflexivity.
Qed.

Lemma zoom_in_closed_form_witness :
  Canvas.m_zoom (this env1) = S754_finite false 8388608 (-23)
  /\ zoomed_in 3 env1 = Some (S754_finite false 8388608 (-20))
  /\ zoomed_in 200 env1 = Some (S754_infinity false).
Proof.
  split; [reflexivity|]. split.
  - apply (zoom_in_closed_form 3 env1 false 8388608 (-23));
      [reflexivity | reflexivity | lia].
  - apply (zoom_in_closed_form 200 env1 false 8388608 (-23));
      [reflexivity | reflexivity | lia].
Defined.

(** X18.  The round trip in the other order: from a normal zoom factor
    whose exponent leaves room for [n] halvings, [n] calls of [zoom_out]
    and then [n] calls of [zoom_in] bring the canvas back exactly to
    where it was. *)
Theorem zoom_out_in_round_trip (n : nat) (e : Env Canvas.t)
    (s : bool) (m : positive) (x : Z) :
  Canvas.m_zoom (this e) = S754_finite s m x ->
  Z.pos (digits2_pos m) = 24%Z -> (-149 <= x - Z.of_nat n)%Z -> (x <= 104)%Z ->
  (times n Canvas.zoom_out;; times n Canvas.zoom_in) e = Ret tt e.
Proof.
  intros Hz Hd Hlo Hhi. unfold mbind, M_bind.
  rewrite times_zoom_out, times_zoom_in.
  destruct e as [[image texture programs program zoom] w]. cbn in *. subst zoom.
  rewrite iter_halve_normal, iter_double_normal by lia.
  destruct (Z.leb_spec (x - Z.of_nat n + Z.of_nat n) 104); [|lia].
  replace (x - Z.of_nat n + Z.of_nat n)%Z with x by lia. reflexivity.
Qed.

Lemma zoom_out_in_round_trip_witness :
  Canvas.m_zoom (this env1) = S754_finite false 8388608 (-23)
  /\ (times 126 Canvas.zoom_out;; times 126 Canvas.zoom_in) env1 = Ret tt env1.
Proof.
  split; [reflexivity|].
  apply (zoom_out_in_round_trip 126 env1 false 8388608 (-23));
    [reflexivity | reflexivity | lia | lia].
Defined.

(** ** What changes the zoom factor *)

Lemma call_zoom `{PixelOps} (op : CanvasOp) (e e' : Env Canvas.t) :
  final_state (call op e) = Some e' ->
  Canvas.m_zoom (this e') = zoom_after [op] (Canvas.m_zoom (this e)).
Proof.
  intros Hrun. destruct op.
  all: revert Hrun; unfold call; canvas_unfold; monad_unfold;
    cbn -[insert lookup delete alter];
    repeat (case_match; simplify_eq/=); cbn; intros; simplify_eq/=; reflexivity.
Qed.

Lemma stuck_zoom_after (ops : list CanvasOp) (z : float) :
  Float32.is_finite z = false \/ (exists s, z = S754_zero s) ->
  zoom_after ops z = z.
Proof.
  intros Hz. induction ops as [| op rest IH] using rev_ind; [reflexivity|].
  unfold zoom_after in *. rewrite foldl_snoc, IH.
  destruct op; try reflexivity;
    unfold Float32.double, Float32.halve, Float32.mul, Float32.div;
    (destruct Hz as [Hz | [s ->]];
     [ destruct z as [| [] | |]; try discriminate; reflexivity
     | destruct s; reflexivity ]).
Qed.

(** X19.  Only [zoom_in] and [zoom_out] change the zoom factor: after
    any sequence of calls the factor is the one the sequence started
    with, doubled by each [zoom_in] and halved by each [zoom_out] in the
    order of the calls, whatever the other calls were.  Both leave a
    factor that is zero or not finite as it is: once the zoom has
    underflowed to zero or overflowed, no sequence of calls on the canvas
    changes it. *)
Theorem zoom_changed_by_zoom_calls_only `{PixelOps} (ops : list CanvasOp)
    (e e' : Env Canvas.t) :
  run ops e = Some e' ->
  Canvas.m_zoom (this e') = zoom_after ops (Canvas.m_zoom (this e))
  /\ (Float32.is_finite (Canvas.m_zoom (this e)) = false
      \/ (exists s, Canvas.m_zoom (this e) = S754_zero s) ->
      Canvas.m_zoom (this e') = Canvas.m_zoom (this e)).
Proof.
  intros Hrun.
  assert (Hzoom : Canvas.m_zoom (this e') = zoom_after ops (Canvas.m_zoom (this e))).
  { revert e Hrun. induction ops as [| op rest IH]; intros e Hrun.
    - injection Hrun as <-. reflexivity.
    - cbn [run] in Hrun.
      destruct (final_state (call op e)) as [e1|] eqn:Hcall; [|discriminate].
      rewrite (IH e1 Hrun), (call_zoom op e e1 Hcall). reflexivity. }
  split; [exact Hzoom|].
  intros Hz. rewrite Hzoom. apply stuck_zoom_after. exact Hz.
Qed.

Lemma zoom_changed_by_zoom_calls_only_witness :
  exists e',
    @run plain_pixels
      [Op_zoom_in; Op_blur; Op_zoom_in; Op_set_shader "sepia"; Op_zoom_out] env1 = Some e'
    /\ Canvas.m_zoom (this e')
       = zoom_after [Op_zoom_in; Op_blur; Op_zoom_in; Op_set_shader "sepia"; Op_zoom_out]
           (Canvas.m_zoom (this env1))
    /\ (Float32.is_finite (Canvas.m_zoom (this env1)) = false
        \/ (exists s, Canvas.m_zoom (this env1) = S754_zero s) ->
        Canvas.m_zoom (this e') = Canvas.m_zoom (this env1)).
Proof.
  eexists. split; [cbn; reflexivity|].
  apply (@zoom_changed_by_zoom_calls_only plain_pixels
           [Op_zoom_in; Op_blur; Op_zoom_in; Op_set_shader "sepia"; Op_zoom_out] env1).
  cbn; reflexivity.
Defined.

(** ** The dialog *)

Ltac dialog_unfold :=
  unfold Dialog.render, Dialog.render_components, Dialog.render_menu,
    Dialog.MenuItem, ImGui_ImplOpenGL3.RenderDrawData, ImGui_ImplOpenGL3.exec,
    Dialog.user_callback, Dialog.draw_with_custom_shader,
    ImageUtils.to_gray, ImGui.NewFrame in *.

(** X20.  The file dialog in [render_menu], when no conversion to gray
    is pending and a chosen file loads: the dialog is opened by the
    open-image flag and stays open until the user answers.  A cancelled
    dialog is closed and changes neither image, memory nor OpenGL state.
    A chosen path closes it too: the previous buffer, if there is one, is
    released first, then the file is loaded, and the image and the
    texture of the dialog show the file as the loader decodes it. *)
Theorem render_menu_file_dialog `{PixelOps} (e : Env Dialog.t) :
  to_gray (render_menu_locals (statics (world e))) = false ->
  (forall path_image,
     FileDialogClosed (input (frame (world e))) = Some (Some path_image) ->
     is_Some (files (mem (world e)) !! path_image)) ->
  let d := this e in
  let w := world e in
  let opened :=
    open_image (render_menu_locals (statics w)) || file_dialog_open (statics w) in
  exists e',
    Dialog.render_menu e = Ret tt e'
    /\ match (if opened then FileDialogClosed (input (frame w)) else None) with
       | None =>
           file_dialog_open (statics (world e')) = opened
           /\ this e' = d /\ mem (world e') = mem w /\ gl (world e') = gl w
       | Some None =>
           file_dialog_open (statics (world e')) = false
           /\ this e' = d /\ mem (world e') = mem w /\ gl (world e') = gl w
       | Some (Some path_image) =>
           file_dialog_open (statics (world e')) = false
           /\ mem_events (mem (world e'))
              = mem_events (mem w)
                ++ match img_data (Dialog.m_image d) with
                   | Some a => [Free a]
                   | None => []
                   end
                ++ [Alloc (heap_next (mem w))]
           /\ exists file,
                files (mem w) !! path_image = Some file
                /\ Image.read (world e') (Dialog.m_image (this e')) = decode None file
                /\ gl_textures (gl (world e')) !! tex_id (Dialog.m_texture (this e'))
                   = Some (decode None file)
       end.
Proof.
  intros Htg Hloads. cbn zeta.
  destruct e as [[[data iw ih ic] tex prog]
                 [[hp hn ev fs] g
                  [[size font mouse clicked hovered buttons radio items closed] dl tps]
                  [cd tb mc ml clk hov sm st sc [oi qa tg] wsc fdo]]].
  cbn in Htg, Hloads. subst tg.
  dialog_unfold. canvas_unfold. unfold Image.read. monad_unfold.
  cbn -[insert lookup delete].
  destruct closed as [[path_image|]|].
  - destruct (Hloads path_image eq_refl) as [file Hfile].
    destruct oi, fdo, qa; cbn -[insert lookup delete];
      try (destruct data as [a|]; cbn -[insert lookup delete]);
      rewrite ?Hfile; cbn -[insert lookup delete];
      (eexists; split; [reflexivity|]); cbn -[insert lookup delete];
      rewrite ?lookup_insert_eq, ?app_nil_r, <- ?app_assoc; cbn -[insert lookup delete];
      repeat split; try reflexivity;
      (exists file; rewrite ?lookup_insert_eq; repeat split; reflexivity).
  - destruct oi, fdo, qa; cbn -[insert lookup delete];
      (eexists; split; [reflexivity|]); cbn -[insert lookup delete];
      repeat split; reflexivity.
  - destruct oi, fdo, qa; cbn -[insert lookup delete];
      (eexists; split; [reflexivity|]); cbn -[insert lookup delete];
      repeat split; reflexivity.
Qed.

Lemma render_menu_file_dialog_witness :
  to_gray (render_menu_locals (statics (world
    (env_dialog1 (file_dialog_input (Some "./assets/images/nature.png"%string))))))
    = false
  /\ is_Some (files (mem world1) !! "./assets/images/nature.png"%string)
  /\ exists e',
       @Dialog.render_menu plain_pixels
         (env_dialog1 (file_dialog_input (Some "./assets/images/nature.png"%string)))
       = Ret tt e'
       /\ file_dialog_open (statics (world e')) = false
       /\ mem_events (mem (world e')) = [Alloc 1%N] ++ [Free 1%N] ++ [Alloc 2%N]
       /\ exists file,
            files (mem world1) !! "./assets/images/nature.png"%string = Some file
            /\ Image.read (world e') (Dialog.m_image (this e')) = file
            /\ gl_textures (gl (world e')) !! tex_id (Dialog.m_texture (this e'))
               = Some file.
Proof.
  split; [reflexivity|]. split; [eexists; reflexivity|].
  refine (@render_menu_file_dialog plain_pixels
            (env_dialog1 (file_dialog_input (Some "./assets/images/nature.png"%string)))
            eq_refl _).
  intros path_image [= <-]. eexists; reflexivity.
Defined.










(** ** The toolbar beyond its command flags *)

(** X23.  [Toolbar::render] always returns and writes statics only: the
    toolbar is as wide as the display and two font sizes high; a
    draw-circle or draw-line button that is disabled, because its flag
    is already set, does not set the flag of the menu; a clicked radio
    button sets the hover mode of the toolbar.  Memory, OpenGL state,
    the frame, [callback_data], the mouse modes and the sizes of menu
    and canvas are left as they are. *)
Theorem Toolbar_render_writes_statics_only (w : World) :
  let s := statics w in
  let t := toolbar s in
  let i := input (frame w) in
  let clicked b := bool_decide (b ∈ ButtonsClicked i) in
  exists w',
    Toolbar.render w = Ret tt w'
    /\ mem w' = mem w /\ gl w' = gl w /\ frame w' = frame w
    /\ Size_toolbar (statics w')
       = ((DisplaySize i).1, Float32.mul Float32.two (FontSize i))
    /\ Menu_draw_circle (statics w')
       = negb (Toolbar_draw_circle t) && clicked ICON_FA_CIRCLE || Menu_draw_circle s
    /\ Menu_draw_line (statics w')
       = negb (Toolbar_draw_line t) && clicked ICON_FA_PEN || Menu_draw_line s
    /\ Toolbar_hover_mode (toolbar (statics w'))
       = default (Toolbar_hover_mode t) (RadioClicked i)
    /\ callback_data (statics w') = callback_data s
    /\ Mouse_click_mode (statics w') = Mouse_click_mode s
    /\ Mouse_hover_mode (statics w') = Mouse_hover_mode s
    /\ Size_menu (statics w') = Size_menu s
    /\ Size_canvas (statics w') = Size_canvas s
    /\ render_menu_locals (statics w') = render_menu_locals s
    /\ window_should_close (statics w') = window_should_close s
    /\ file_dialog_open (statics w') = file_dialog_open s.
Proof.
  cbn zeta.
  enough (Hwp : wp Toolbar.render (fun _ w' =>
    mem w' = mem w /\ gl w' = gl w /\ frame w' = frame w
    /\ Size_toolbar (statics w')
       = ((DisplaySize (input (frame w))).1,
          Float32.mul Float32.two (FontSize (input (frame w))))
    /\ Menu_draw_circle (statics w')
       = negb (Toolbar_draw_circle (toolbar (statics w)))
         && bool_decide (ICON_FA_CIRCLE ∈ ButtonsClicked (input (frame w)))
         || Menu_draw_circle (statics w)
    /\ Menu_draw_line (statics w')
       = negb (Toolbar_draw_line (toolbar (statics w)))
         && bool_decide (ICON_FA_PEN ∈ ButtonsClicked (input (frame w)))
         || Menu_draw_line (statics w)
    /\ Toolbar_hover_mode (toolbar (statics w'))
       = default (Toolbar_hover_mode (toolbar (statics w)))
           (RadioClicked (input (frame w)))
    /\ callback_data (statics w') = callback_data (statics w)
    /\ Mouse_click_mode (statics w') = Mouse_click_mode (statics w)
    /\ Mouse_hover_mode (statics w') = Mouse_hover_mode (statics w)
    /\ Size_menu (statics w') = Size_menu (statics w)
    /\ Size_canvas (statics w') = Size_canvas (statics w)
    /\ render_menu_locals (statics w') = render_menu_locals (statics w)
    /\ window_should_close (statics w') = window_should_close (statics w)
    /\ file_dialog_open (statics w') = file_dialog_open (statics w)) w).
  { apply wp_returns in Hwp as ([] & w' & Hrun & Hq). eauto. }
  destruct w as [m g [inp dl tps]
                 [cd [oi si qa zi zo dc dl' hm] mc ml clk hov sm st sc loc wsc fdo]].
  unfold Toolbar.render, Toolbar.Button. cbn.
  repeat wp_toolbar_step; repeat split; try reflexivity.
Qed.
